(** * Randao processing and fork domains of beacon-kit

    A shallow embedding of the state-transition slice of the repository:
    [ForkData.ComputeDomain], [StateProcessor.buildRandaoMix],
    [StateProcessor.processRandaoReveal] and
    [StateProcessor.processRandaoMixesReset], together with the
    primitives they call (SHA-256, byte-wise xor). *)

From Stdlib Require Import NArith List Lia Bool.
From Stdlib Require Import Init.Byte Strings.Byte.
From stdpp Require Import base list.
Import ListNotations.

Local Open Scope N_scope.

(** ** Bytes *)

Module Bytes.

(** A Go [byte] is [Byte.byte]; its numeric value is [Byte.to_N]. *)
Definition of_N (n : N) : byte :=
  match Byte.of_N (n mod 256) with
  | Some b => b
  | None => x00
  end.

(** Go's [a ^ b] on bytes. *)
Definition xor (a b : byte) : byte :=
  of_N (N.lxor (Byte.to_N a) (Byte.to_N b)).

(** Big-endian serialisation of a 32-bit word and of a 64-bit word. *)
Definition be32 (w : N) : list byte :=
  [of_N (N.shiftr w 24); of_N (N.shiftr w 16); of_N (N.shiftr w 8); of_N w].

Definition be64 (w : N) : list byte :=
  be32 (N.shiftr w 32) ++ be32 w.

(** The 32-bit word stored big-endian in four bytes. *)
Definition word_of_be (b3 b2 b1 b0 : byte) : N :=
  N.lor (N.shiftl (Byte.to_N b3) 24)
    (N.lor (N.shiftl (Byte.to_N b2) 16)
       (N.lor (N.shiftl (Byte.to_N b1) 8) (Byte.to_N b0))).

(** Little-endian serialisation, as Go's [binary.LittleEndian]. *)
Definition le32 (w : N) : list byte :=
  [of_N w; of_N (N.shiftr w 8); of_N (N.shiftr w 16); of_N (N.shiftr w 24)].

Definition le64 (w : N) : list byte :=
  le32 w ++ le32 (N.shiftr w 32).

#[export] Instance byte_eq_decision : EqDecision byte := Byte.byte_eq_dec.

(** [make([]byte, n)]: n zero bytes. *)
Definition make (n : nat) : list byte := repeat x00 n.

(** Element-wise xor of two byte strings, up to the shorter one. *)
Fixpoint xor_list (a b : list byte) : list byte :=
  match a, b with
  | x :: a', y :: b' => xor x y :: xor_list a' b'
  | _, _ => []
  end.

End Bytes.
Export (hints) Bytes.

(** ** SHA-256

    [sha256.Hash] of the repository wraps the standard SHA-256 (FIPS 180-4)
    and returns a [[32]byte].  Words are 32-bit values in [N], with the
    wrap-around of additions and left shifts written out. *)

Module SHA256.

Definition wrap32 (x : N) : N := x mod 2 ^ 32.
Definition add32 (x y : N) : N := wrap32 (x + y).
Definition not32 (x : N) : N := N.lxor (wrap32 x) 0xFFFFFFFF.
Definition rotr (n x : N) : N :=
  N.lor (N.shiftr x n) (wrap32 (N.shiftl x (32 - n))).

Definition Ch (x y z : N) : N := N.lxor (N.land x y) (N.land (not32 x) z).
Definition Maj (x y z : N) : N :=
  N.lxor (N.lxor (N.land x y) (N.land x z)) (N.land y z).
Definition bsig0 (x : N) : N := N.lxor (N.lxor (rotr 2 x) (rotr 13 x)) (rotr 22 x).
Definition bsig1 (x : N) : N := N.lxor (N.lxor (rotr 6 x) (rotr 11 x)) (rotr 25 x).
Definition ssig0 (x : N) : N := N.lxor (N.lxor (rotr 7 x) (rotr 18 x)) (N.shiftr x 3).
Definition ssig1 (x : N) : N := N.lxor (N.lxor (rotr 17 x) (rotr 19 x)) (N.shiftr x 10).

Definition K : list N :=
  [ 0x428A2F98; 0x71374491; 0xB5C0FBCF; 0xE9B5DBA5;
    0x3956C25B; 0x59F111F1; 0x923F82A4; 0xAB1C5ED5;
    0xD807AA98; 0x12835B01; 0x243185BE; 0x550C7DC3;
    0x72BE5D74; 0x80DEB1FE; 0x9BDC06A7; 0xC19BF174;
    0xE49B69C1; 0xEFBE4786; 0x0FC19DC6; 0x240CA1CC;
    0x2DE92C6F; 0x4A7484AA; 0x5CB0A9DC; 0x76F988DA;
    0x983E5152; 0xA831C66D; 0xB00327C8; 0xBF597FC7;
    0xC6E00BF3; 0xD5A79147; 0x06CA6351; 0x14292967;
    0x27B70A85; 0x2E1B2138; 0x4D2C6DFC; 0x53380D13;
    0x650A7354; 0x766A0ABB; 0x81C2C92E; 0x92722C85;
    0xA2BFE8A1; 0xA81A664B; 0xC24B8B70; 0xC76C51A3;
    0xD192E819; 0xD6990624; 0xF40E3585; 0x106AA070;
    0x19A4C116; 0x1E376C08; 0x2748774C; 0x34B0BCB5;
    0x391C0CB3; 0x4ED8AA4A; 0x5B9CCA4F; 0x682E6FF3;
    0x748F82EE; 0x78A5636F; 0x84C87814; 0x8CC70208;
    0x90BEFFFA; 0xA4506CEB; 0xBEF9A3F7; 0xC67178F2 ].

(** The eight working words of the hash. *)
Record digest : Type := Digest {
  h0 : N; h1 : N; h2 : N; h3 : N; h4 : N; h5 : N; h6 : N; h7 : N
}.

Definition init : digest :=
  Digest 0x6A09E667 0xBB67AE85 0x3C6EF372 0xA54FF53A
         0x510E527F 0x9B05688C 0x1F83D9AB 0x5BE0CD19.

(** Padding: a 1 bit, zeros up to 56 mod 64, the bit length on 64 bits. *)
Definition pad (msg : list byte) : list byte :=
  let len := N.of_nat (length msg) in
  let zeros := (64 + 55 - len mod 64) mod 64 in
  msg ++ [x80] ++ Bytes.make (N.to_nat zeros) ++ Bytes.be64 ((8 * len) mod 2 ^ 64).

(** The big-endian words of a byte string (a trailing partial word is
    dropped; padded messages have none). *)
Fixpoint words (fuel : nat) (bs : list byte) : list N :=
  match fuel, bs with
  | S fuel', b3 :: b2 :: b1 :: b0 :: rest =>
      Bytes.word_of_be b3 b2 b1 b0 :: words fuel' rest
  | _, _ => []
  end.

(** Cut a word list into blocks of sixteen. *)
Fixpoint blocks (fuel : nat) (ws : list N) : list (list N) :=
  match fuel, ws with
  | S fuel', _ :: _ => firstn 16 ws :: blocks fuel' (skipn 16 ws)
  | _, _ => []
  end.

(** Message schedule, most recent word first: [rev_w] holds
    W[t-1], W[t-2], ... and is extended by [n] words. *)
Fixpoint extend (n : nat) (rev_w : list N) : list N :=
  match n with
  | O => rev_w
  | S n' =>
      let w := add32 (add32 (ssig1 (nth 1 rev_w 0)) (nth 6 rev_w 0))
                     (add32 (ssig0 (nth 14 rev_w 0)) (nth 15 rev_w 0)) in
      extend n' (w :: rev_w)
  end.

Definition schedule (block : list N) : list N :=
  rev (extend 48 (rev block)).

Definition round (d : digest) (kw : N * N) : digest :=
  let '(k, w) := kw in
  let t1 := add32 (add32 (add32 (add32 (h7 d) (bsig1 (h4 d)))
                                (Ch (h4 d) (h5 d) (h6 d))) k) w in
  let t2 := add32 (bsig0 (h0 d)) (Maj (h0 d) (h1 d) (h2 d)) in
  Digest (add32 t1 t2) (h0 d) (h1 d) (h2 d)
         (add32 (h3 d) t1) (h4 d) (h5 d) (h6 d).

Definition compress (d : digest) (block : list N) : digest :=
  let r := fold_left round (combine K (schedule block)) d in
  Digest (add32 (h0 d) (h0 r)) (add32 (h1 d) (h1 r))
         (add32 (h2 d) (h2 r)) (add32 (h3 d) (h3 r))
         (add32 (h4 d) (h4 r)) (add32 (h5 d) (h5 r))
         (add32 (h6 d) (h6 r)) (add32 (h7 d) (h7 r)).

Definition output (d : digest) : list byte :=
  Bytes.be32 (h0 d) ++ Bytes.be32 (h1 d) ++ Bytes.be32 (h2 d) ++
  Bytes.be32 (h3 d) ++ Bytes.be32 (h4 d) ++ Bytes.be32 (h5 d) ++
  Bytes.be32 (h6 d) ++ Bytes.be32 (h7 d).

(** [sha256.Hash(bz []byte) [32]byte]. *)
Definition Hash (msg : list byte) : list byte :=
  let p := pad msg in
  let ws := words (length p) p in
  output (fold_left compress (blocks (length ws) ws) init).

End SHA256.

(** ** Results of Go functions *)

(** Modelled from the spec: the error values named by its error taxonomy
    (section 7).  The Go functions below never build an [error] themselves;
    they hand back the one a collaborator returned. *)
Inductive error : Type :=
| InvalidProposer
| InvalidSignature
| InvalidBlockHash
| InvalidVersionedHashes
| StoreError
| EngineCommunicationError.

(** A Go pair [(value, err)]. *)
Inductive result (A : Type) : Type :=
| Ok (a : A)
| Err (e : error).
Arguments Ok {A} a.
Arguments Err {A} e.

(** How a Go call ends: it returns a value, returns a non-nil error, or
    panics. *)
Inductive outcome (A : Type) : Type :=
| Return (a : A)
| Fail (e : error)
| Panic.
Arguments Return {A} a.
Arguments Fail {A} e.
Arguments Panic {A}.

(** How a call that returns only an [error] ends. *)
Definition ended (r : option error) : outcome unit :=
  match r with None => Return tt | Some e => Fail e end.

(** ** Fixed-size byte arrays and unsigned arithmetic *)

Definition Bytes32 : Type := list byte.
Definition Root : Type := list byte.
Definition Version : Type := list byte.
Definition DomainType : Type := list byte.
Definition Domain : Type := list byte.
Definition BLSPubkey : Type := list byte.
Definition BLSSignature : Type := list byte.

(** [constants.RootLength]. *)
Definition RootLength : nat := 32.

(** Conversion of a slice to an array of [n] bytes, [[n]byte(s)]: it
    panics ([None]) when the slice is shorter than the array. *)
Definition to_array (n : nat) (s : list byte) : option (list byte) :=
  if (length s <? n)%nat then None else Some (take n s).

(** [uint64] addition wraps around. *)
Definition u64_add (a b : N) : N := (a + b) mod 2 ^ 64.

(** [uint64] remainder; [None] is the division-by-zero panic. *)
Definition u64_rem (a b : N) : option N :=
  if b =? 0 then None else Some (a mod b).

(** [xor.Bytes(dst, a, b)] of go-faster/xor: xors the first
    [n = min(len a, len b)] bytes of [a] and [b] into [dst], leaves the
    rest of [dst] alone and returns [n]; it panics ([None]) when [dst] is
    shorter than [n]. *)
Definition xor_Bytes (dst a b : list byte) : option (list byte * nat) :=
  let n := Nat.min (length a) (length b) in
  if (length dst <? n)%nat then None
  else Some (Bytes.xor_list a b ++ drop n dst, n).

(** ** ForkData and its domain *)

Record ForkData : Type := mkForkData {
  CurrentVersion : Version;
  GenesisValidatorsRoot : Root
}.

Definition NewForkData (currentVersion : Version)
    (genesisValidatorsRoot : Root) : ForkData :=
  {| CurrentVersion := currentVersion;
     GenesisValidatorsRoot := genesisValidatorsRoot |}.

(** The two field widths that the Go types [Version] ([[4]byte]) and
    [Root] ([[32]byte]) enforce. *)
Definition ForkData_wf (fv : ForkData) : Prop :=
  length (CurrentVersion fv) = 4%nat /\
  length (GenesisValidatorsRoot fv) = 32%nat.

(** The SSZ interface of a container: [HashTreeRoot() ([32]byte, error)]. *)
Class Merkleizable (T : Type) : Type := {
  HashTreeRoot : T -> result (list byte)
}.

(** [ForkData.ComputeDomain]. *)
Definition ComputeDomain `{Merkleizable ForkData}
    (fv : ForkData) (domainType : DomainType) : outcome Domain :=
  match HashTreeRoot fv with
  | Err err => Fail err
  | Ok forkDataRoot =>
      match to_array 32 (domainType ++ take 28 forkDataRoot) with
      | Some d => Return d
      | None => Panic
      end
  end.

(** A field of at most 32 bytes as one SSZ chunk: zero-padded on the right. *)
Definition chunk (field : list byte) : list byte :=
  field ++ Bytes.make (32 - length field).

(** Modelled from the spec: [ForkData.HashTreeRoot], whose generated file
    (fork_data.ssz.go) is not part of the sources.  Section 4.1: chunk A is
    [current_version] zero-padded to 32 bytes, chunk B is
    [genesis_validators_root], and the root is [SHA256(chunk_A || chunk_B)]. *)
Definition ForkData_HashTreeRoot (fv : ForkData) : result (list byte) :=
  Ok (SHA256.Hash (chunk (CurrentVersion fv) ++ GenesisValidatorsRoot fv)).

#[export] Instance ForkData_Merkleizable : Merkleizable ForkData :=
  {| HashTreeRoot := ForkData_HashTreeRoot |}.

(** The substitute that section 4.1 rules out: hashing the raw
    concatenation of the unpadded field bytes. *)
Definition raw_concat_domain (fv : ForkData) (domainType : DomainType) : Domain :=
  domainType ++ take 28 (SHA256.Hash (CurrentVersion fv ++ GenesisValidatorsRoot fv)).

(** ** buildRandaoMix *)

(** [StateProcessor.buildRandaoMix].  [None] would be a panic of
    [xor.Bytes] or of the conversion to [Bytes32]. *)
Definition buildRandaoMix (mix : Bytes32) (reveal : BLSSignature) : option Bytes32 :=
  let newMix := Bytes.make RootLength in
  let revealHash := SHA256.Hash reveal in
  match xor_Bytes newMix mix revealHash with
  | None => None
  | Some (newMix', _) => to_array 32 newMix'
  end.

(** ** Collaborators of the state processor

    The processor is generic over its block, state, context, validator and
    fork-data types; each Go constraint is a class or a record of the
    methods the code calls. *)

(** [ValidatorT]: the one method used is [GetPubkey]. *)
Class ValidatorT (V : Type) : Type := {
  GetPubkey : V -> BLSPubkey
}.

(** [ForkDataT]: [New] and [ComputeRandaoSigningRoot]. *)
Class ForkDataT (FD : Type) : Type := {
  New : Version -> Root -> FD;
  ComputeRandaoSigningRoot : FD -> DomainType -> N -> Root
}.

(** [BeaconStateT]: the accessors are reads of the state; the update
    returns its error (if any) and the state it leaves behind. *)
Class BeaconStateT (St V : Type) : Type := {
  GetSlot : St -> result N;
  ValidatorByIndex : St -> N -> result V;
  GetGenesisValidatorsRoot : St -> result Root;
  GetRandaoMixAtIndex : St -> N -> result Bytes32;
  UpdateRandaoMixAtIndex : St -> N -> Bytes32 -> option error * St
}.

(** The chain spec [sp.cs]. *)
Record ChainSpec : Type := {
  SlotToEpoch : N -> N;
  ActiveForkVersionForEpoch : N -> N;
  DomainTypeRandao : DomainType;
  EpochsPerHistoricalVector : N
}.

(** The signer [sp.signer]; [None] is Go's nil error. *)
Record Signer : Type := {
  VerifySignature : BLSPubkey -> list byte -> BLSSignature -> option error
}.

Record StateProcessor : Type := {
  cs : ChainSpec;
  signer : Signer
}.

Record BeaconBlockBody : Type := {
  GetRandaoReveal : BLSSignature
}.

Record BeaconBlock : Type := {
  GetProposerIndex : N;
  GetBody : BeaconBlockBody
}.

Record Context : Type := {
  GetSkipValidateRandao : bool
}.

(** ** Programs over the collaborators

    A method of the processor is a tree of calls to the state and to the
    signer.  Running it against a state gives how it ended, the state it
    left and the calls it made, in order, each with its answer. *)

Section Programs.

Context {V : Type}.

Inductive Event : Type -> Type :=
| EGetSlot : Event (result N)
| EValidatorByIndex (index : N) : Event (result V)
| EGetGenesisValidatorsRoot : Event (result Root)
| EGetRandaoMixAtIndex (index : N) : Event (result Bytes32)
| EUpdateRandaoMixAtIndex (index : N) (mix : Bytes32) : Event (option error)
| EVerifySignature (pubkey : BLSPubkey) (msg : list byte)
    (signature : BLSSignature) : Event (option error).

Inductive Prog (A : Type) : Type :=
| Ret (a : A)
| Throw (e : error)
| Abort
| Vis {X : Type} (ev : Event X) (k : X -> Prog A).

Arguments Ret {A} a.
Arguments Throw {A} e.
Arguments Abort {A}.
Arguments Vis {A X} ev k.

Fixpoint bind {A B : Type} (p : Prog A) (f : A -> Prog B) : Prog B :=
  match p with
  | Ret a => f a
  | Throw e => Throw e
  | Abort => Abort
  | Vis ev k => Vis ev (fun x => bind (k x) f)
  end.

(** [x, err := call; if err != nil { return err }]. *)
Definition try {A : Type} (ev : Event (result A)) : Prog A :=
  Vis ev (fun r => match r with Ok a => Ret a | Err e => Throw e end).

(** [if err := call; err != nil { return err }]. *)
Definition check (ev : Event (option error)) : Prog unit :=
  Vis ev (fun r => match r with None => Ret tt | Some e => Throw e end).

(** A pure step that may panic. *)
Definition pure {A : Type} (o : option A) : Prog A :=
  match o with Some a => Ret a | None => Abort end.

(** One call of the trace, with the answer it got. *)
Inductive Call : Type :=
| CGetSlot (r : result N)
| CValidatorByIndex (index : N) (r : result V)
| CGetGenesisValidatorsRoot (r : result Root)
| CGetRandaoMixAtIndex (index : N) (r : result Bytes32)
| CUpdateRandaoMixAtIndex (index : N) (mix : Bytes32) (r : option error)
| CVerifySignature (pubkey : BLSPubkey) (msg : list byte)
    (signature : BLSSignature) (r : option error).

Definition is_update (c : Call) : bool :=
  match c with CUpdateRandaoMixAtIndex _ _ _ => true | _ => false end.

Definition is_verify (c : Call) : bool :=
  match c with CVerifySignature _ _ _ _ => true | _ => false end.

(** The error of a state read that failed. *)
Definition failed_read (c : Call) : option error :=
  match c with
  | CGetSlot (Err e) => Some e
  | CValidatorByIndex _ (Err e) => Some e
  | CGetGenesisValidatorsRoot (Err e) => Some e
  | CGetRandaoMixAtIndex _ (Err e) => Some e
  | _ => None
  end.

Context {St : Type} `{BeaconStateT St V}.

Definition handle (sg : Signer) {X : Type} (ev : Event X) (st : St)
    : X * St * Call :=
  match ev in Event X return X * St * Call with
  | EGetSlot =>
      let r := GetSlot st in (r, st, CGetSlot r)
  | EValidatorByIndex i =>
      let r := ValidatorByIndex st i in (r, st, CValidatorByIndex i r)
  | EGetGenesisValidatorsRoot =>
      let r := GetGenesisValidatorsRoot st in
      (r, st, CGetGenesisValidatorsRoot r)
  | EGetRandaoMixAtIndex i =>
      let r := GetRandaoMixAtIndex st i in (r, st, CGetRandaoMixAtIndex i r)
  | EUpdateRandaoMixAtIndex i m =>
      let '(r, st') := UpdateRandaoMixAtIndex st i m in
      (r, st', CUpdateRandaoMixAtIndex i m r)
  | EVerifySignature pk msg sig =>
      let r := VerifySignature sg pk msg sig in
      (r, st, CVerifySignature pk msg sig r)
  end.

Fixpoint run (sg : Signer) {A : Type} (p : Prog A) (st : St)
    : outcome A * St * list Call :=
  match p with
  | Ret a => (Return a, st, [])
  | Throw e => (Fail e, st, [])
  | Abort => (Panic, st, [])
  | Vis ev k =>
      let '(x, st', c) := handle sg ev st in
      let '(o, st'', tr) := run sg (k x) st' in
      (o, st'', c :: tr)
  end.

End Programs.

Arguments Prog V A : clear implicits.
Arguments Event V X : clear implicits.
Arguments Call V : clear implicits.
Arguments Ret {V A} a.
Arguments Throw {V A} e.
Arguments Abort {V A}.
Arguments Vis {V A X} ev k.

Notation "x <- p ;; q" := (bind p (fun x => q))
  (at level 100, p at next level, right associativity).
Notation "p ;;; q" := (bind p (fun _ => q))
  (at level 100, q at level 200, right associativity).

(** ** The two randao steps of the state processor *)

Section Randao.

Context {V : Type} `{ValidatorT V}.
Context {FD : Type} `{ForkDataT FD}.

(** [version.FromUint32[common.Version]]: the four bytes of a fork
    version number. *)
Variable FromUint32 : N -> Version.

(** [StateProcessor.processRandaoReveal]; the state [st] is the one the
    program is run against. *)
Definition processRandaoReveal (sp : StateProcessor) (ctx : Context)
    (blk : BeaconBlock) : Prog V unit :=
  slot <- try EGetSlot ;;
  proposer <- try (EValidatorByIndex (GetProposerIndex blk)) ;;
  genesisValidatorsRoot <- try EGetGenesisValidatorsRoot ;;
  let epoch := SlotToEpoch (cs sp) slot in
  let body := GetBody blk in
  let fd := New (FromUint32 (ActiveForkVersionForEpoch (cs sp) epoch))
                genesisValidatorsRoot in
  (if negb (GetSkipValidateRandao ctx) then
     let signingRoot :=
       ComputeRandaoSigningRoot fd (DomainTypeRandao (cs sp)) epoch in
     let reveal := GetRandaoReveal body in
     check (EVerifySignature (GetPubkey proposer) signingRoot reveal)
   else Ret tt) ;;;
  i <- pure (u64_rem epoch (EpochsPerHistoricalVector (cs sp))) ;;
  prevMix <- try (EGetRandaoMixAtIndex i) ;;
  j <- pure (u64_rem epoch (EpochsPerHistoricalVector (cs sp))) ;;
  newMix <- pure (buildRandaoMix prevMix (GetRandaoReveal body)) ;;
  check (EUpdateRandaoMixAtIndex j newMix).

(** [StateProcessor.processRandaoMixesReset]. *)
Definition processRandaoMixesReset (sp : StateProcessor) : Prog V unit :=
  slot <- try EGetSlot ;;
  let epoch := SlotToEpoch (cs sp) slot in
  i <- pure (u64_rem epoch (EpochsPerHistoricalVector (cs sp))) ;;
  mix <- try (EGetRandaoMixAtIndex i) ;;
  j <- pure (u64_rem (u64_add epoch 1) (EpochsPerHistoricalVector (cs sp))) ;;
  check (EUpdateRandaoMixAtIndex j mix).

(** The signing root that [processRandaoReveal] verifies the reveal
    against, as a function of the slot and of the genesis validators root
    it read. *)
Definition randaoSigningRoot (sp : StateProcessor) (slot : N) (gvr : Root)
    : Root :=
  let epoch := SlotToEpoch (cs sp) slot in
  ComputeRandaoSigningRoot
    (New (FromUint32 (ActiveForkVersionForEpoch (cs sp) epoch)) gvr)
    (DomainTypeRandao (cs sp)) epoch.

End Randao.

(** The index [epoch % EpochsPerHistoricalVector] of the epoch of a slot. *)
Definition mixIndex (chain : ChainSpec) (slot : N) : N :=
  SlotToEpoch chain slot mod EpochsPerHistoricalVector chain.

(** ** Engine requests *)

Definition ExecutionHash : Type := list byte.
Definition ExecutionAddress : Type := list byte.

(** The getters of the [ExecutionPayload] interface that
    [HasValidVersionedAndBlockHashes] calls; [W] is the withdrawal type. *)
Class ExecutionPayloadT (P W : Type) : Type := {
  GetParentHash : P -> ExecutionHash;
  GetFeeRecipient : P -> ExecutionAddress;
  GetStateRoot : P -> Bytes32;
  GetReceiptsRoot : P -> Bytes32;
  GetLogsBloom : P -> list byte;
  GetPrevRandao : P -> Bytes32;
  GetNumber : P -> N;
  GetGasLimit : P -> N;
  GetGasUsed : P -> N;
  GetTimestamp : P -> N;
  GetExtraData : P -> list byte;
  GetBaseFeePerGas : P -> N;
  GetBlockHash : P -> ExecutionHash;
  GetTransactions : P -> list (list byte);
  GetWithdrawals : P -> list W;
  GetBlobGasUsed : P -> N;
  GetExcessBlobGas : P -> N
}.

(** go-ethereum's [engine.ExecutableData], with the fields the request
    fills in; the two blob-gas fields are pointers. *)
Record ExecutableData (W : Type) : Type := {
  ParentHash : ExecutionHash;
  FeeRecipient : ExecutionAddress;
  StateRoot : ExecutionHash;
  ReceiptsRoot : ExecutionHash;
  LogsBloom : list byte;
  Random : ExecutionHash;
  Number : N;
  GasLimit : N;
  GasUsed : N;
  Timestamp : N;
  ExtraData : list byte;
  BaseFeePerGas : N;
  BlockHash : ExecutionHash;
  Transactions : list (list byte);
  Withdrawals : list W;
  BlobGasUsed : option N;
  ExcessBlobGas : option N
}.

Record NewPayloadRequest (P : Type) : Type := {
  ExecutionPayload : P;
  VersionedHashes : list ExecutionHash;
  ParentBeaconBlockRoot : option Root;
  SkipIfExists : bool;
  Optimistic : bool
}.
Arguments ExecutionPayload {P} n.
Arguments VersionedHashes {P} n.
Arguments ParentBeaconBlockRoot {P} n.
Arguments SkipIfExists {P} n.
Arguments Optimistic {P} n.

(** [BuildNewPayloadRequest]. *)
Definition BuildNewPayloadRequest {P : Type} (executionPayload : P)
    (versionedHashes : list ExecutionHash) (parentBeaconBlockRoot : option Root)
    (skipIfExists optimistic : bool) : NewPayloadRequest P :=
  {| ExecutionPayload := executionPayload;
     VersionedHashes := versionedHashes;
     ParentBeaconBlockRoot := parentBeaconBlockRoot;
     SkipIfExists := skipIfExists;
     Optimistic := optimistic |}.

Section Engine.

Context {P W : Type} `{ExecutionPayloadT P W}.

(** The error that go-ethereum's [engine.ExecutableDataToBlock] returns
    ([None] is nil); the block it builds is dropped by the caller.  Its
    code (block hash, blob hashes) is outside the repository. *)
Variable ExecutableDataToBlock :
  ExecutableData W -> list ExecutionHash -> option ExecutionHash -> option error.

(** [NewPayloadRequest.HasValidVersionedAndBlockHashes]. *)
Definition HasValidVersionedAndBlockHashes (n : NewPayloadRequest P)
    : option error :=
  let payload := ExecutionPayload n in
  let withdrawals := GetWithdrawals payload in
  let data :=
    {| ParentHash := GetParentHash payload;
       FeeRecipient := GetFeeRecipient payload;
       StateRoot := GetStateRoot payload;
       ReceiptsRoot := GetReceiptsRoot payload;
       LogsBloom := GetLogsBloom payload;
       Random := GetPrevRandao payload;
       Number := GetNumber payload;
       GasLimit := GetGasLimit payload;
       GasUsed := GetGasUsed payload;
       Timestamp := GetTimestamp payload;
       ExtraData := GetExtraData payload;
       BaseFeePerGas := GetBaseFeePerGas payload;
       BlockHash := GetBlockHash payload;
       Transactions := GetTransactions payload;
       Withdrawals := withdrawals;
       BlobGasUsed := Some (GetBlobGasUsed payload);
       ExcessBlobGas := Some (GetExcessBlobGas payload) |} in
  ExecutableDataToBlock data (VersionedHashes n) (ParentBeaconBlockRoot n).

End Engine.

(** ** Concrete collaborators

    The state store, the signer, the chain spec and the signing root live
    outside the sources; the instances below follow the specification and
    let the processor run on concrete inputs. *)

Record MemValidator : Type := {
  Pubkey : BLSPubkey
}.

#[export] Instance MemValidator_ValidatorT : ValidatorT MemValidator :=
  {| GetPubkey := Pubkey |}.

(** Modelled from the spec: the beacon state of section 3 (current slot,
    genesis validators root, indexable validator registry, randao mix
    vector) behind the accessors of section 6: [get_slot] and
    [get_genesis_validators_root] give their value, [validator_by_index]
    fails with [InvalidProposer] when the index is out of range of the
    registry (section 4.3, step 2), and the two mix accessors fail with
    [StoreError] when the index is out of range of the vector. *)
Record MemState : Type := {
  ms_slot : N;
  ms_genesis_validators_root : Root;
  ms_validators : list MemValidator;
  ms_randao_mixes : list Bytes32
}.

Definition MemState_GetSlot (st : MemState) : result N :=
  Ok (ms_slot st).

Definition MemState_ValidatorByIndex (st : MemState) (index : N)
    : result MemValidator :=
  match ms_validators st !! N.to_nat index with
  | Some v => Ok v
  | None => Err InvalidProposer
  end.

Definition MemState_GetGenesisValidatorsRoot (st : MemState) : result Root :=
  Ok (ms_genesis_validators_root st).

Definition MemState_GetRandaoMixAtIndex (st : MemState) (index : N)
    : result Bytes32 :=
  match ms_randao_mixes st !! N.to_nat index with
  | Some m => Ok m
  | None => Err StoreError
  end.

Definition MemState_UpdateRandaoMixAtIndex (st : MemState) (index : N)
    (mix : Bytes32) : option error * MemState :=
  if (N.to_nat index <? length (ms_randao_mixes st))%nat then
    (None,
     {| ms_slot := ms_slot st;
        ms_genesis_validators_root := ms_genesis_validators_root st;
        ms_validators := ms_validators st;
        ms_randao_mixes := <[N.to_nat index := mix]> (ms_randao_mixes st) |})
  else (Some StoreError, st).

#[export] Instance MemState_BeaconStateT : BeaconStateT MemState MemValidator :=
  {| GetSlot := MemState_GetSlot;
     ValidatorByIndex := MemState_ValidatorByIndex;
     GetGenesisValidatorsRoot := MemState_GetGenesisValidatorsRoot;
     GetRandaoMixAtIndex := MemState_GetRandaoMixAtIndex;
     UpdateRandaoMixAtIndex := MemState_UpdateRandaoMixAtIndex |}.

(** Modelled from the spec: a signer that answers [InvalidSignature] when
    the verification predicate rejects (section 4.3, step 5). *)
Definition Signer_of (valid : BLSPubkey -> list byte -> BLSSignature -> bool)
    : Signer :=
  {| VerifySignature pk msg sig :=
       if valid pk msg sig then None else Some InvalidSignature |}.

(** Modelled from the spec: epoch = slot / slots-per-epoch (glossary). *)
Definition ChainSpec_of (slotsPerEpoch : N) (forkVersion : N)
    (domainTypeRandao : DomainType) (epochsPerHistoricalVector : N)
    : ChainSpec :=
  {| SlotToEpoch slot := slot / slotsPerEpoch;
     ActiveForkVersionForEpoch _ := forkVersion;
     DomainTypeRandao := domainTypeRandao;
     EpochsPerHistoricalVector := epochsPerHistoricalVector |}.

(** Modelled from the spec: the signing root of the signed-message
    convention (section 4.3, step 5), the hash of the epoch's chunk
    followed by the randao domain of section 4.1. *)
Definition ForkData_ComputeRandaoSigningRoot (fd : ForkData)
    (domainType : DomainType) (epoch : N) : Root :=
  match ComputeDomain fd domainType with
  | Return domain => SHA256.Hash (chunk (Bytes.le64 epoch) ++ domain)
  | _ => Bytes.make 32
  end.

#[export] Instance ForkData_ForkDataT : ForkDataT ForkData :=
  {| New := NewForkData;
     ComputeRandaoSigningRoot := ForkData_ComputeRandaoSigningRoot |}.

(** ** Sample data *)

Module Sample.

Definition abc : list byte := [x61; x62; x63].

(** The 56-byte message of the second SHA-256 test vector, which pads to
    two blocks: "abcdbcdecdefdefg...nopq". *)
Definition two_blocks : list byte :=
  flat_map (fun c => [Bytes.of_N c; Bytes.of_N (c + 1);
                      Bytes.of_N (c + 2); Bytes.of_N (c + 3)])
    [0x61; 0x62; 0x63; 0x64; 0x65; 0x66; 0x67; 0x68;
     0x69; 0x6a; 0x6b; 0x6c; 0x6d; 0x6e].

(** The deposit domain type of the consensus specification. *)
Definition domainTypeDeposit : DomainType := [x03; x00; x00; x00].
Definition genesisFork : ForkData := NewForkData (Bytes.make 4) (Bytes.make 32).
Definition zero32 : list byte := Bytes.make 32.
Definition mixX : Bytes32 := repeat xa5 32.
Definition mixY : Bytes32 := repeat x3c 32.
Definition reveal : BLSSignature := repeat x11 96.
Definition forged : BLSSignature := repeat x22 96.
Definition version : Version := [x04; x00; x00; x00].
Definition domainType : DomainType := [x02; x00; x00; x00].
Definition forkData : ForkData := NewForkData version zero32.

(** A stand-in for BLS verification: the only signature a key accepts
    for a message is the hash of the key followed by the message. *)
Definition valid (pk : BLSPubkey) (msg : list byte) (sig : BLSSignature)
    : bool :=
  bool_decide (sig = SHA256.Hash (pk ++ msg)).

Definition strict : Signer := Signer_of valid.
Definition lenient : Signer := Signer_of (fun _ _ _ => true).

Definition spec8 : ChainSpec := ChainSpec_of 32 4 domainType 8.
Definition spec3 : ChainSpec := ChainSpec_of 1 4 domainType 3.
Definition sp8 : StateProcessor := {| cs := spec8; signer := strict |}.
Definition sp3 : StateProcessor := {| cs := spec3; signer := strict |}.

Definition proposer0 : MemValidator := {| Pubkey := repeat x07 48 |}.
Definition proposer1 : MemValidator := {| Pubkey := repeat x09 48 |}.

(** Epoch 3 of a chain with 32 slots per epoch; the mix of index 3 is
    [mixX], every other one is [mixY]. *)
Definition state : MemState :=
  {| ms_slot := 100;
     ms_genesis_validators_root := zero32;
     ms_validators := [proposer0; proposer1];
     ms_randao_mixes := [mixY; mixY; mixY; mixX; mixY; mixY; mixY; mixY] |}.

(** The same state with an empty mix vector: every mix read fails. *)
Definition no_mixes : MemState :=
  {| ms_slot := 100;
     ms_genesis_validators_root := zero32;
     ms_validators := [proposer0; proposer1];
     ms_randao_mixes := [] |}.

(** A validator type whose key accessor ignores the validator. *)
Definition keyless : ValidatorT MemValidator := {| GetPubkey _ := [] |}.

Definition block (proposer : N) (sig : BLSSignature) : BeaconBlock :=
  {| GetProposerIndex := proposer; GetBody := {| GetRandaoReveal := sig |} |}.

(** The state moved to another slot. *)
Definition at_slot (slot : N) (st : MemState) : MemState :=
  {| ms_slot := slot;
     ms_genesis_validators_root := ms_genesis_validators_root st;
     ms_validators := ms_validators st;
     ms_randao_mixes := ms_randao_mixes st |}.

Definition validate : Context := {| GetSkipValidateRandao := false |}.
Definition skip : Context := {| GetSkipValidateRandao := true |}.

End Sample.

(** ** Stores that keep what is written

    What a caller of the processor relies on from the state behind
    [BeaconStateT]: a successful update is read back at its index and
    leaves the other mixes and the slot as they were. *)
Record StoreLaws {St V : Type} `{BeaconStateT St V} : Prop := {
  update_get_same :
    forall (st st' : St) (i : N) (m : Bytes32),
      UpdateRandaoMixAtIndex st i m = (None, st') ->
      GetRandaoMixAtIndex st' i = Ok m;
  update_get_other :
    forall (st st' : St) (i j : N) (m : Bytes32),
      UpdateRandaoMixAtIndex st i m = (None, st') -> i <> j ->
      GetRandaoMixAtIndex st' j = GetRandaoMixAtIndex st j;
  update_keeps_slot :
    forall (st st' : St) (i : N) (m : Bytes32),
      UpdateRandaoMixAtIndex st i m = (None, st') ->
      GetSlot st' = GetSlot st
}.
Arguments StoreLaws St V {_}.

(** The calls of a trace other than those to the signer. *)
Definition without_verify {V : Type} (trace : list (Call V)) : list (Call V) :=
  List.filter (fun c => negb (is_verify c)) trace.

(** ** Further sample data *)

Module Scenario.

(** The signature that [Sample.strict] accepts from the first proposer for
    the randao signing root of slot 100. *)
Definition signature : BLSSignature :=
  SHA256.Hash
    (Pubkey Sample.proposer0 ++
     randaoSigningRoot (FD := ForkData) Bytes.le32 Sample.sp8 100 Sample.zero32).

(** A chain spec with a historical vector of length 0. *)
Definition sp0 : StateProcessor :=
  {| cs := ChainSpec_of 32 4 Sample.domainType 0; signer := Sample.strict |}.

(** Another fork version, domain type and signer, the same epochs and
    vector length. *)
Definition sp_other : StateProcessor :=
  {| cs := ChainSpec_of 32 9 Sample.domainTypeDeposit 8;
     signer := Sample.lenient |}.

(** A fork-data type that carries nothing. *)
Definition unit_fork : ForkDataT unit :=
  {| New _ _ := tt; ComputeRandaoSigningRoot _ _ _ := [] |}.

(** The last slot of a [uint64], one slot per epoch and a vector of three
    mixes: [mixX] at index 0, [mixY] at indices 1 and 2. *)
Definition last_epoch : MemState :=
  {| ms_slot := 2 ^ 64 - 1;
     ms_genesis_validators_root := Sample.zero32;
     ms_validators := [Sample.proposer0; Sample.proposer1];
     ms_randao_mixes := [Sample.mixX; Sample.mixY; Sample.mixY] |}.

End Scenario.

(** * Properties *)

(** ** Bytes and SHA-256 *)

Example sha256_abc :
  SHA256.Hash Sample.abc =
  [xba; x78; x16; xbf; x8f; x01; xcf; xea; x41; x41; x40; xde; x5d; xae; x22; x23;
   xb0; x03; x61; xa3; x96; x17; x7a; x9c; xb4; x10; xff; x61; xf2; x00; x15; xad].
Proof. vm_compute. reflexivity. Qed.

Example sha256_two_blocks :
  SHA256.Hash Sample.two_blocks =
  [x24; x8d; x6a; x61; xd2; x06; x38; xb8; xe5; xc0; x26; x93; x0c; x3e; x60; x39;
   xa3; x3c; xe4; x59; x64; xff; x21; x67; xf6; xec; xed; xd4; x19; xdb; x06; xc1].
Proof. vm_compute. reflexivity. Qed.

Example sha256_empty :
  SHA256.Hash [] =
  [xe3; xb0; xc4; x42; x98; xfc; x1c; x14; x9a; xfb; xf4; xc8; x99; x6f; xb9; x24;
   x27; xae; x41; xe4; x64; x9b; x93; x4c; xa4; x95; x99; x1b; x78; x52; xb8; x55].
Proof. vm_compute. reflexivity. Qed.


Lemma to_N_of_N (n : N) : n < 256 -> Byte.to_N (Bytes.of_N n) = n.
Proof.
  intros Hn. unfold Bytes.of_N.
  rewrite N.mod_small by exact Hn.
  destruct (Byte.of_N n) as [b|] eqn:E.
  - apply Byte.to_of_N. exact E.
  - apply Byte.of_N_None_iff in E. lia.
Qed.

Lemma of_N_to_N (b : byte) : Bytes.of_N (Byte.to_N b) = b.
Proof.
  unfold Bytes.of_N.
  rewrite N.mod_small by (pose proof (Byte.to_N_bounded b); lia).
  rewrite Byte.of_to_N. reflexivity.
Qed.

Lemma lxor_lt_256 (a b : N) : a < 256 -> b < 256 -> N.lxor a b < 256.
Proof.
  intros Ha Hb.
  destruct (N.eq_dec (N.lxor a b) 0) as [Hz|Hz]; [rewrite Hz; lia|].
  change 256 with (2 ^ 8). apply N.log2_lt_pow2; [lia|].
  eapply N.le_lt_trans; [apply N.log2_lxor|].
  apply N.max_lub_lt.
  - destruct (N.eq_dec a 0) as [->|Hn]; [simpl; lia|].
    apply N.log2_lt_pow2; [lia|exact Ha].
  - destruct (N.eq_dec b 0) as [->|Hn]; [simpl; lia|].
    apply N.log2_lt_pow2; [lia|exact Hb].
Qed.

Lemma to_N_lt_256 (b : byte) : Byte.to_N b < 256.
Proof. pose proof (Byte.to_N_bounded b). lia. Qed.

Lemma xor_involutive (a b : byte) : Bytes.xor (Bytes.xor a b) b = a.
Proof.
  unfold Bytes.xor.
  rewrite to_N_of_N by (apply lxor_lt_256; apply to_N_lt_256).
  rewrite N.lxor_assoc, N.lxor_nilpotent, N.lxor_0_r.
  apply of_N_to_N.
Qed.

Lemma xor_list_length (a b : list byte) :
  length (Bytes.xor_list a b) = Nat.min (length a) (length b).
Proof.
  revert b. induction a as [|x a IH]; intros [|y b]; simpl; auto.
Qed.

Lemma xor_list_involutive (a b : list byte) :
  (length a <= length b)%nat ->
  Bytes.xor_list (Bytes.xor_list a b) b = a.
Proof.
  revert b. induction a as [|x a IH]; intros [|y b] Hlen; simpl in *;
    try reflexivity; try lia.
  rewrite xor_involutive, IH by lia. reflexivity.
Qed.

Lemma make_length (n : nat) : length (Bytes.make n) = n.
Proof. unfold Bytes.make. induction n; simpl; auto. Qed.

Lemma output_length (d : SHA256.digest) : length (SHA256.output d) = 32%nat.
Proof. destruct d. reflexivity. Qed.

Lemma Hash_length (msg : list byte) : length (SHA256.Hash msg) = 32%nat.
Proof. unfold SHA256.Hash. apply output_length. Qed.

#[global] Opaque SHA256.Hash.

Lemma to_array_exact (n : nat) (s : list byte) :
  length s = n -> to_array n s = Some s.
Proof.
  intros <-. unfold to_array.
  rewrite Nat.ltb_irrefl, firstn_all. reflexivity.
Qed.

(** ** buildRandaoMix *)

(** Whatever the length of [mix], neither [xor.Bytes] nor the conversion
    to [Bytes32] panics. *)
Lemma buildRandaoMix_total (mix : Bytes32) (reveal : BLSSignature) :
  exists newMix,
    buildRandaoMix mix reveal = Some newMix /\ length newMix = 32%nat.
Proof.
  unfold buildRandaoMix, xor_Bytes.
  rewrite make_length, Hash_length. unfold RootLength.
  destruct (Nat.ltb_spec 32 (Nat.min (length mix) 32)) as [Hlt|Hge]; [lia|].
  eexists. split.
  - apply to_array_exact.
    rewrite length_app, xor_list_length, Hash_length, length_drop, make_length.
    lia.
  - rewrite length_app, xor_list_length, Hash_length, length_drop, make_length.
    lia.
Qed.

Lemma buildRandaoMix_xor (mix : Bytes32) (reveal : BLSSignature) :
  length mix = 32%nat ->
  buildRandaoMix mix reveal = Some (Bytes.xor_list mix (SHA256.Hash reveal)).
Proof.
  intros Hmix. unfold buildRandaoMix, xor_Bytes.
  rewrite make_length, Hash_length, Hmix. unfold RootLength. simpl Nat.ltb.
  cbv iota.
  rewrite drop_ge by (rewrite make_length; simpl; lia).
  rewrite app_nil_r. apply to_array_exact.
  rewrite xor_list_length, Hash_length, Hmix. reflexivity.
Qed.

Lemma xor_list_lookup (a b : list byte) (i : nat) (x y : byte) :
  a !! i = Some x -> b !! i = Some y ->
  Bytes.xor_list a b !! i = Some (Bytes.xor x y).
Proof.
  revert b i. induction a as [|x0 a IH]; intros [|y0 b] [|i] Ha Hb;
    simpl in *; try discriminate.
  - congruence.
  - apply IH; assumption.
Qed.

(** C2: for a 32-byte previous mix and any reveal, [buildRandaoMix] returns
    (it has no failure path) the 32-byte value that xors the previous mix,
    byte by byte, with the 32-byte SHA-256 hash of the reveal. *)
Theorem buildRandaoMix_spec (prevMix : Bytes32) (reveal : BLSSignature) :
  length prevMix = 32%nat ->
  let revealHash := SHA256.Hash reveal in
  buildRandaoMix prevMix reveal = Some (Bytes.xor_list prevMix revealHash) /\
  length revealHash = 32%nat /\
  length (Bytes.xor_list prevMix revealHash) = 32%nat /\
  (forall (i : nat) (x h : byte),
      prevMix !! i = Some x -> revealHash !! i = Some h ->
      Bytes.xor_list prevMix revealHash !! i = Some (Bytes.xor x h)).
Proof.
  intros Hmix revealHash. subst revealHash.
  split; [|split; [|split]].
  - apply buildRandaoMix_xor. exact Hmix.
  - apply Hash_length.
  - rewrite xor_list_length, Hash_length, Hmix. reflexivity.
  - intros i x h. apply xor_list_lookup.
Qed.

Lemma buildRandaoMix_spec_witness :
  length Sample.mixX = 32%nat /\
  buildRandaoMix Sample.mixX Sample.reveal =
    Some (Bytes.xor_list Sample.mixX (SHA256.Hash Sample.reveal)).
Proof.
  split; [reflexivity|].
  apply (buildRandaoMix_spec Sample.mixX Sample.reveal). reflexivity.
Defined.

(** C5: [buildRandaoMix] is a function of its two inputs, and xoring its
    output with the hash of the reveal gives back the previous 32-byte
    mix. *)
Theorem buildRandaoMix_self_inverse (m : Bytes32) (r : BLSSignature) :
  length m = 32%nat ->
  (forall (m' : Bytes32) (r' : BLSSignature),
      m' = m -> r' = r -> buildRandaoMix m' r' = buildRandaoMix m r) /\
  exists newMix,
    buildRandaoMix m r = Some newMix /\
    Bytes.xor_list newMix (SHA256.Hash r) = m.
Proof.
  intros Hm. split.
  - intros m' r' -> ->. reflexivity.
  - exists (Bytes.xor_list m (SHA256.Hash r)). split.
    + apply buildRandaoMix_xor. exact Hm.
    + apply xor_list_involutive. rewrite Hash_length, Hm. reflexivity.
Qed.

Lemma buildRandaoMix_self_inverse_witness :
  length Sample.mixX = 32%nat /\
  exists newMix,
    buildRandaoMix Sample.mixX Sample.reveal = Some newMix /\
    Bytes.xor_list newMix (SHA256.Hash Sample.reveal) = Sample.mixX.
Proof.
  split; [reflexivity|].
  apply (buildRandaoMix_self_inverse Sample.mixX Sample.reveal). reflexivity.
Defined.

(** ** ComputeDomain *)

Lemma chunk_version (v : Version) :
  length v = 4%nat -> chunk v = v ++ Bytes.make 28.
Proof. intros Hv. unfold chunk. rewrite Hv. reflexivity. Qed.

(** C1: for a well-formed [ForkData] and a 4-byte domain type,
    [ComputeDomain] returns the 32 bytes [domain_type ||
    fork_data_root[0:28]], where the root is the SHA-256 hash of the version
    zero-padded to 32 bytes followed by the genesis validators root.  The
    hashed message is never the raw 36-byte concatenation of the fields,
    and the domain differs from the one that hashing the raw concatenation
    would give. *)
Theorem ComputeDomain_spec (fv : ForkData) (domainType : DomainType) :
  ForkData_wf fv ->
  length domainType = 4%nat ->
  let chunk_A := CurrentVersion fv ++ Bytes.make 28 in
  let chunk_B := GenesisValidatorsRoot fv in
  let fork_data_root := SHA256.Hash (chunk_A ++ chunk_B) in
  ComputeDomain fv domainType = Return (domainType ++ take 28 fork_data_root) /\
  length (domainType ++ take 28 fork_data_root) = 32%nat /\
  length chunk_A = 32%nat /\
  chunk_A ++ chunk_B <> CurrentVersion fv ++ GenesisValidatorsRoot fv /\
  exists (fv' : ForkData) (domainType' : DomainType),
    ForkData_wf fv' /\ length domainType' = 4%nat /\
    ComputeDomain fv' domainType' <> Return (raw_concat_domain fv' domainType').
Proof.
  intros [Hv Hr] Hd. cbv zeta.
  set (root := SHA256.Hash _).
  assert (Hlen : length (domainType ++ take 28 root) = 32%nat).
  { rewrite length_app, length_take, Hd.
    unfold root. rewrite Hash_length. reflexivity. }
  split; [|split; [|split; [|split]]].
  - unfold ComputeDomain, HashTreeRoot, ForkData_Merkleizable,
      ForkData_HashTreeRoot.
    rewrite (chunk_version _ Hv). fold root.
    rewrite (to_array_exact _ _ Hlen). reflexivity.
  - exact Hlen.
  - rewrite length_app, make_length, Hv. reflexivity.
  - intros Heq. apply (f_equal length) in Heq.
    rewrite !length_app, make_length, Hv, Hr in Heq. discriminate Heq.
  - exists Sample.forkData, Sample.domainType.
    split; [split; reflexivity|]. split; [reflexivity|].
    vm_compute. intros Heq. discriminate Heq.
Qed.

Lemma ComputeDomain_spec_witness :
  ForkData_wf Sample.forkData /\
  length Sample.domainType = 4%nat /\
  ComputeDomain Sample.forkData Sample.domainType =
    Return (Sample.domainType ++
            take 28 (SHA256.Hash ((Sample.version ++ Bytes.make 28) ++ Sample.zero32))).
Proof.
  assert (Hwf : ForkData_wf Sample.forkData) by (split; reflexivity).
  split; [exact Hwf|]. split; [reflexivity|].
  exact (proj1 (ComputeDomain_spec Sample.forkData Sample.domainType Hwf eq_refl)).
Defined.

(** ** The randao steps of the state processor *)

Arguments buildRandaoMix : simpl never.
Arguments u64_rem : simpl never.
Arguments u64_add : simpl never.

Ltac run_step :=
  cbn [run bind try check pure handle negb];
  repeat match goal with
    | H : ?x = _ |- context [?x] => rewrite H
    end;
  cbn [run bind try check pure handle negb].

Ltac run_steps :=
  unfold processRandaoReveal, processRandaoMixesReset;
  repeat progress run_step.

(** Case analysis on the answer of the next collaborator call. *)
Ltac run_case :=
  match goal with
  | |- context [GetSlot ?s] => destruct (GetSlot s) eqn:?
  | |- context [ValidatorByIndex ?s ?i] => destruct (ValidatorByIndex s i) eqn:?
  | |- context [GetGenesisValidatorsRoot ?s] =>
      destruct (GetGenesisValidatorsRoot s) eqn:?
  | |- context [GetSkipValidateRandao ?c] =>
      destruct (GetSkipValidateRandao c) eqn:?
  | |- context [VerifySignature ?g ?k ?m ?s] =>
      destruct (VerifySignature g k m s) eqn:?
  | |- context [u64_rem ?a ?b] => destruct (u64_rem a b) eqn:?
  | |- context [GetRandaoMixAtIndex ?s ?i] =>
      destruct (GetRandaoMixAtIndex s i) eqn:?
  | |- context [buildRandaoMix ?a ?b] => destruct (buildRandaoMix a b) eqn:?
  | |- context [UpdateRandaoMixAtIndex ?s ?i ?m] =>
      destruct (UpdateRandaoMixAtIndex s i m) as [? ?] eqn:?
  | |- context [run _ (match ?r with Some _ => _ | None => _ end) _] =>
      destruct r
  end;
  cbn [run bind try check pure handle negb].

Ltac run_cases :=
  unfold processRandaoReveal, processRandaoMixesReset;
  cbn [run bind try check pure handle negb];
  repeat run_case.

Lemma u64_rem_positive (a b : N) : b <> 0 -> u64_rem a b = Some (a mod b).
Proof.
  intros Hb. unfold u64_rem.
  destruct (N.eqb_spec b 0) as [Hz|_]; [contradiction|reflexivity].
Qed.

Lemma u64_add_small (a b : N) : a + b < 2 ^ 64 -> u64_add a b = a + b.
Proof. intros Hlt. unfold u64_add. apply N.mod_small. exact Hlt. Qed.

Section RandaoProperties.

Context {V St FD : Type}.
Context {VT : ValidatorT V} {BS : BeaconStateT St V} {FDT : ForkDataT FD}.
Variable FromUint32 : N -> Version.

(** C3: with validation enabled, when the signer rejects the block's
    reveal for the proposer's public key and the computed signing root,
    [processRandaoReveal] returns the signer's error (the spec's
    [InvalidSignature]) after the three reads and the verification alone:
    no update is called and the state is the one it started from. *)
Theorem processRandaoReveal_invalid_signature
    (sp : StateProcessor) (ctx : Context) (blk : BeaconBlock) (st : St)
    (slot : N) (proposer : V) (gvr : Root) (e : error) :
  GetSkipValidateRandao ctx = false ->
  GetSlot st = Ok slot ->
  ValidatorByIndex st (GetProposerIndex blk) = Ok proposer ->
  GetGenesisValidatorsRoot st = Ok gvr ->
  VerifySignature (signer sp) (GetPubkey proposer)
    (randaoSigningRoot FromUint32 sp slot gvr) (GetRandaoReveal (GetBody blk)) = Some e ->
  let trace :=
    [CGetSlot (Ok slot);
     CValidatorByIndex (GetProposerIndex blk) (Ok proposer);
     CGetGenesisValidatorsRoot (Ok gvr);
     CVerifySignature (GetPubkey proposer) (randaoSigningRoot FromUint32 sp slot gvr)
       (GetRandaoReveal (GetBody blk)) (Some e)] in
  run (signer sp) (processRandaoReveal FromUint32 sp ctx blk) st =
    (Fail e, st, trace) /\
  Forall (fun c => is_update c = false) trace.
Proof.
  intros Hskip Hslot Hprop Hgvr Hsig trace. subst trace.
  unfold randaoSigningRoot in *. split.
  - run_steps. reflexivity.
  - repeat constructor.
Qed.

(** C4, as amended: [processRandaoMixesReset] reads the mix of index
    [e mod V] and calls the update with that same value at index
    [((e + 1) mod 2^64) mod V], the sum being a [uint64]; that index is
    [(e + 1) mod V] for every epoch below [2^64 - 1]; with a store that
    gives back what was written, the mix at that index is then the value
    read. *)
Theorem processRandaoMixesReset_carries_mix
    (sp : StateProcessor) (st : St) (slot : N) (X : Bytes32) :
  let e := SlotToEpoch (cs sp) slot in
  let Vlen := EpochsPerHistoricalVector (cs sp) in
  let j := u64_add e 1 mod Vlen in
  GetSlot st = Ok slot ->
  Vlen <> 0 ->
  GetRandaoMixAtIndex st (e mod Vlen) = Ok X ->
  let written := UpdateRandaoMixAtIndex st j X in
  run (signer sp) (processRandaoMixesReset sp) st =
    (ended written.1, written.2,
     [CGetSlot (Ok slot);
      CGetRandaoMixAtIndex (e mod Vlen) (Ok X);
      CUpdateRandaoMixAtIndex j X written.1]) /\
  (e + 1 < 2 ^ 64 -> j = (e + 1) mod Vlen) /\
  ((forall (s s' : St) (i : N) (m : Bytes32),
       UpdateRandaoMixAtIndex s i m = (None, s') ->
       GetRandaoMixAtIndex s' i = Ok m) ->
   written.1 = None ->
   GetRandaoMixAtIndex written.2 j = Ok X).
Proof.
  intros e Vlen j Hslot HV Hmix written. split; [|split].
  - unfold processRandaoMixesReset.
    cbn [run bind try check pure handle]. rewrite Hslot.
    cbn [run bind try check pure handle].
    fold e Vlen. rewrite !(u64_rem_positive _ _ HV).
    cbn [run bind try check pure handle]. rewrite Hmix.
    cbn [run bind try check pure handle]. fold j. fold written.
    destruct written as [[err|] st']; reflexivity.
  - intros Hsmall. unfold j. rewrite u64_add_small by exact Hsmall.
    reflexivity.
  - intros Hlaw. subst written.
    destruct (UpdateRandaoMixAtIndex st j X) as [r st'] eqn:Hw.
    simpl. intros ->. exact (Hlaw st st' j X Hw).
Qed.

(** C6: when the context asks to skip validation,
    [processRandaoReveal] makes no call to the signer; what it returns,
    the state it leaves and the calls it makes are the same for any
    signer and any public key of the proposer; and once its four reads
    have succeeded it calls the update at index [epoch mod V] with
    [buildRandaoMix] of the mix it read and the block's reveal. *)
Theorem processRandaoReveal_skip_validation
    (chain : ChainSpec) (sg sg' : Signer) (VT' : ValidatorT V)
    (ctx : Context) (blk : BeaconBlock) (st : St) :
  GetSkipValidateRandao ctx = true ->
  let p :=
    @processRandaoReveal V VT FD FDT FromUint32
      {| cs := chain; signer := sg |} ctx blk in
  let p' :=
    @processRandaoReveal V VT' FD FDT FromUint32
      {| cs := chain; signer := sg' |} ctx blk in
  Forall (fun c => is_verify c = false) (run sg p st).2 /\
  run sg p st = run sg' p' st /\
  forall (slot : N) (proposer : V) (gvr : Root) (prevMix : Bytes32),
    GetSlot st = Ok slot ->
    ValidatorByIndex st (GetProposerIndex blk) = Ok proposer ->
    GetGenesisValidatorsRoot st = Ok gvr ->
    EpochsPerHistoricalVector chain <> 0 ->
    GetRandaoMixAtIndex st (mixIndex chain slot) = Ok prevMix ->
    exists newMix : Bytes32,
      buildRandaoMix prevMix (GetRandaoReveal (GetBody blk)) = Some newMix /\
      let written := UpdateRandaoMixAtIndex st (mixIndex chain slot) newMix in
      run sg p st =
        (ended written.1, written.2,
         [CGetSlot (Ok slot);
          CValidatorByIndex (GetProposerIndex blk) (Ok proposer);
          CGetGenesisValidatorsRoot (Ok gvr);
          CGetRandaoMixAtIndex (mixIndex chain slot) (Ok prevMix);
          CUpdateRandaoMixAtIndex (mixIndex chain slot) newMix written.1]).
Proof.
  intros Hskip p p'. subst p p'. split; [|split].
  - unfold processRandaoReveal. rewrite Hskip.
    cbn [run bind try check pure handle negb cs signer].
    repeat run_case; cbn [snd]; repeat constructor.
  - unfold processRandaoReveal. rewrite Hskip.
    cbn [run bind try check pure handle negb cs signer].
    repeat run_case; reflexivity.
  - intros slot proposer gvr prevMix Hslot Hprop Hgvr HV Hmix.
    destruct (buildRandaoMix_total prevMix (GetRandaoReveal (GetBody blk)))
      as [newMix [Hbuild _]].
    exists newMix. split; [exact Hbuild|].
    unfold mixIndex in *.
    unfold processRandaoReveal. rewrite Hskip.
    cbn [run bind try check pure handle negb cs signer].
    rewrite Hslot. cbn [run bind try check pure handle].
    rewrite Hprop. cbn [run bind try check pure handle].
    rewrite Hgvr. cbn [run bind try check pure handle].
    rewrite !(u64_rem_positive _ _ HV).
    cbn [run bind try check pure handle].
    rewrite Hmix. cbn [run bind try check pure handle].
    rewrite Hbuild. cbn [run bind try check pure handle].
    destruct (UpdateRandaoMixAtIndex st _ newMix) as [[err|] st'];
      reflexivity.
Qed.

(** C7: if any read of the state made by [processRandaoReveal] (slot,
    proposer, genesis validators root, previous mix) fails, the call
    returns that read's error, the state is unchanged and the update is
    never called. *)
Theorem processRandaoReveal_failed_read
    (sp : StateProcessor) (ctx : Context) (blk : BeaconBlock) (st st' : St)
    (o : outcome unit) (trace : list (Call V)) (e : error) :
  run (signer sp) (processRandaoReveal FromUint32 sp ctx blk) st =
    (o, st', trace) ->
  (exists c, In c trace /\ failed_read c = Some e) ->
  o = Fail e /\ st' = st /\ Forall (fun c => is_update c = false) trace.
Proof.
  run_cases;
    intros Hrun [c [Hin Hfail]]; injection Hrun as <- <- <-;
    simpl in Hin;
    repeat match goal with
      | H : _ \/ _ |- _ => destruct H as [<-|H]
      end;
    try contradiction; simpl in Hfail; try discriminate Hfail;
    injection Hfail as <-;
    (split; [reflexivity|split; [reflexivity|repeat constructor]]).
Qed.

(** The second read: with the slot read, a failed lookup of the proposer
    ends the call. *)
Lemma processRandaoReveal_lookup_error
    (sp : StateProcessor) (ctx : Context) (blk : BeaconBlock) (st : St)
    (slot : N) (e : error) :
  GetSlot st = Ok slot ->
  ValidatorByIndex st (GetProposerIndex blk) = Err e ->
  run (signer sp) (processRandaoReveal FromUint32 sp ctx blk) st =
    (Fail e, st,
     [CGetSlot (Ok slot); CValidatorByIndex (GetProposerIndex blk) (Err e)]).
Proof.
  intros Hslot Hprop. unfold processRandaoReveal.
  cbn [run bind try check pure handle]. rewrite Hslot.
  cbn [run bind try check pure handle]. rewrite Hprop.
  reflexivity.
Qed.

(** C10: the proposer is resolved before the skip flag is looked at.
    When the lookup of the block's proposer index fails, the call ends in
    the same way whatever the flag: it returns an error, leaves the state
    as it was, calls neither the signer nor the update; and, the slot
    having been read, the error is the one of the lookup. *)
Theorem processRandaoReveal_invalid_proposer_any_context
    (sp : StateProcessor) (blk : BeaconBlock) (st : St) (e : error) :
  ValidatorByIndex st (GetProposerIndex blk) = Err e ->
  (forall ctx ctx' : Context,
      run (signer sp) (processRandaoReveal FromUint32 sp ctx blk) st =
      run (signer sp) (processRandaoReveal FromUint32 sp ctx' blk) st) /\
  (forall ctx : Context,
      let '(o, st', trace) :=
        run (signer sp) (processRandaoReveal FromUint32 sp ctx blk) st in
      (exists e', o = Fail e') /\ st' = st /\
      Forall (fun c => is_update c = false) trace /\
      Forall (fun c => is_verify c = false) trace) /\
  (forall (slot : N) (ctx : Context),
      GetSlot st = Ok slot ->
      run (signer sp) (processRandaoReveal FromUint32 sp ctx blk) st =
        (Fail e, st,
         [CGetSlot (Ok slot);
          CValidatorByIndex (GetProposerIndex blk) (Err e)])).
Proof.
  intros Hprop. split; [|split].
  - intros ctx ctx'. unfold processRandaoReveal.
    cbn [run bind try check pure handle].
    destruct (GetSlot st); cbn [run bind try check pure handle];
      rewrite ?Hprop; reflexivity.
  - intros ctx. unfold processRandaoReveal.
    cbn [run bind try check pure handle].
    destruct (GetSlot st); cbn [run bind try check pure handle];
      rewrite ?Hprop; cbn [run bind try check pure handle];
      (split; [eexists; reflexivity|]); repeat constructor.
  - intros slot ctx Hslot.
    apply processRandaoReveal_lookup_error; assumption.
Qed.

End RandaoProperties.

(** ** The processor on the state of the specification *)

Lemma MemState_lookup_out_of_range (st : MemState) (index : N) :
  N.of_nat (length (ms_validators st)) <= index ->
  ValidatorByIndex st index = Err InvalidProposer.
Proof.
  intros Hge. cbn [ValidatorByIndex MemState_BeaconStateT].
  unfold MemState_ValidatorByIndex.
  rewrite lookup_ge_None_2 by lia. reflexivity.
Qed.

Lemma MemState_get_after_update (s s' : MemState) (i : N) (m : Bytes32) :
  UpdateRandaoMixAtIndex s i m = (None, s') ->
  GetRandaoMixAtIndex s' i = Ok m.
Proof.
  cbn [UpdateRandaoMixAtIndex GetRandaoMixAtIndex MemState_BeaconStateT].
  unfold MemState_UpdateRandaoMixAtIndex, MemState_GetRandaoMixAtIndex.
  destruct (Nat.ltb_spec (N.to_nat i) (length (ms_randao_mixes s)))
    as [Hlt|Hge]; [|discriminate].
  intros Heq. injection Heq as <-. cbn [ms_randao_mixes].
  rewrite list_lookup_insert_eq by exact Hlt. reflexivity.
Qed.

(** C9: on the state of the specification, a block whose proposer index is
    out of range of the validator registry makes [processRandaoReveal]
    fail with [InvalidProposer], whatever the context, after the slot read
    and the lookup alone: the state is unchanged and no update is called. *)
Theorem processRandaoReveal_invalid_proposer
    {FD : Type} {FDT : ForkDataT FD} (FromUint32 : N -> Version)
    (sp : StateProcessor) (ctx : Context) (blk : BeaconBlock) (st : MemState) :
  N.of_nat (length (ms_validators st)) <= GetProposerIndex blk ->
  let trace :=
    [CGetSlot (Ok (ms_slot st));
     CValidatorByIndex (GetProposerIndex blk) (Err InvalidProposer)] in
  run (signer sp) (processRandaoReveal FromUint32 sp ctx blk) st =
    (Fail InvalidProposer, st, trace) /\
  Forall (fun c => is_update c = false) trace.
Proof.
  intros Hrange trace. subst trace. split.
  - apply processRandaoReveal_lookup_error.
    + reflexivity.
    + apply MemState_lookup_out_of_range. exact Hrange.
  - repeat constructor.
Qed.

Lemma processRandaoReveal_invalid_proposer_witness :
  N.of_nat (length (ms_validators Sample.state)) <= 2 /\
  run Sample.strict
    (processRandaoReveal Bytes.le32 Sample.sp8 Sample.validate
       (Sample.block 2 Sample.reveal)) Sample.state =
  (Fail InvalidProposer, Sample.state,
   [CGetSlot (Ok 100); CValidatorByIndex 2 (Err InvalidProposer)]).
Proof.
  assert (Hrange : N.of_nat (length (ms_validators Sample.state)) <= 2)
    by (vm_compute; discriminate).
  split; [exact Hrange|].
  exact (proj1 (processRandaoReveal_invalid_proposer (FD := ForkData)
                  Bytes.le32 Sample.sp8 Sample.validate
                  (Sample.block 2 Sample.reveal) Sample.state Hrange)).
Defined.

Lemma processRandaoReveal_invalid_signature_witness :
  run Sample.strict
    (processRandaoReveal Bytes.le32 Sample.sp8 Sample.validate
       (Sample.block 0 Sample.forged)) Sample.state =
  (Fail InvalidSignature, Sample.state,
   [CGetSlot (Ok 100);
    CValidatorByIndex 0 (Ok Sample.proposer0);
    CGetGenesisValidatorsRoot (Ok Sample.zero32);
    CVerifySignature (Pubkey Sample.proposer0)
      (randaoSigningRoot (FD := ForkData) Bytes.le32 Sample.sp8 100 Sample.zero32)
      Sample.forged (Some InvalidSignature)]).
Proof.
  refine (proj1 (processRandaoReveal_invalid_signature (FD := ForkData)
                   Bytes.le32 Sample.sp8 Sample.validate
                   (Sample.block 0 Sample.forged) Sample.state
                   100 Sample.proposer0 Sample.zero32 InvalidSignature
                   eq_refl eq_refl eq_refl eq_refl _)).
  vm_compute. reflexivity.
Defined.

Lemma processRandaoMixesReset_carries_mix_witness :
  EpochsPerHistoricalVector (cs Sample.sp8) = 8 /\
  SlotToEpoch (cs Sample.sp8) (ms_slot Sample.state) = 3 /\
  GetRandaoMixAtIndex Sample.state 3 = Ok Sample.mixX /\
  GetRandaoMixAtIndex
    (run Sample.strict (processRandaoMixesReset Sample.sp8) Sample.state).1.2 4
  = Ok Sample.mixX.
Proof.
  split; [reflexivity|]. split; [reflexivity|]. split; [reflexivity|].
  assert (HV : EpochsPerHistoricalVector (cs Sample.sp8) <> 0)
    by (vm_compute; discriminate).
  destruct (processRandaoMixesReset_carries_mix
              (BS := MemState_BeaconStateT)
              Sample.sp8 Sample.state 100 Sample.mixX eq_refl HV eq_refl)
    as [Hrun [_ Hget]].
  cbn [signer Sample.sp8] in Hrun. rewrite Hrun.
  apply Hget; [exact MemState_get_after_update|reflexivity].
Defined.

(** C4, as first stated, fails at the last epoch of a [uint64]: with one
    slot per epoch, slot [2^64 - 1] and a vector of three mixes, the reset
    reads [mixX] at index [e mod 3 = 0] and returns nil, but the index
    [(e + 1) mod 3 = 1] is never written and still holds [mixY]: the sum
    wrapped to 0 and the write went to index 0. *)
Lemma processRandaoMixesReset_last_epoch_counterexample :
  let st := Scenario.last_epoch in
  let e := SlotToEpoch (cs Sample.sp3) (ms_slot st) in
  let Vlen := EpochsPerHistoricalVector (cs Sample.sp3) in
  let r := run Sample.strict (processRandaoMixesReset Sample.sp3) st in
  GetSlot st = Ok (2 ^ 64 - 1) /\
  e = 2 ^ 64 - 1 /\ Vlen = 3 /\
  GetRandaoMixAtIndex st (e mod Vlen) = Ok Sample.mixX /\
  r.1.1 = Return tt /\
  (e + 1) mod Vlen = 1 /\
  r.2 = [CGetSlot (Ok (2 ^ 64 - 1));
         CGetRandaoMixAtIndex 0 (Ok Sample.mixX);
         CUpdateRandaoMixAtIndex 0 Sample.mixX None] /\
  (forall res, ~ In (CUpdateRandaoMixAtIndex ((e + 1) mod Vlen) Sample.mixX res)
                    r.2) /\
  GetRandaoMixAtIndex r.1.2 ((e + 1) mod Vlen) = Ok Sample.mixY /\
  GetRandaoMixAtIndex r.1.2 ((e + 1) mod Vlen) <> Ok Sample.mixX.
Proof.
  intros st e Vlen r.
  assert (Htrace : r.2 = [CGetSlot (Ok (2 ^ 64 - 1));
                          CGetRandaoMixAtIndex 0 (Ok Sample.mixX);
                          CUpdateRandaoMixAtIndex 0 Sample.mixX None])
    by (vm_compute; reflexivity).
  assert (Hnext : (e + 1) mod Vlen = 1) by (vm_compute; reflexivity).
  assert (Hkept : GetRandaoMixAtIndex r.1.2 ((e + 1) mod Vlen) = Ok Sample.mixY)
    by (vm_compute; reflexivity).
  split; [vm_compute; reflexivity|].
  split; [vm_compute; reflexivity|].
  split; [vm_compute; reflexivity|].
  split; [vm_compute; reflexivity|].
  split; [vm_compute; reflexivity|].
  split; [exact Hnext|].
  split; [exact Htrace|].
  split.
  - intros res Hin. rewrite Htrace, Hnext in Hin. simpl in Hin.
    destruct Hin as [Hc|[Hc|[Hc|[]]]]; discriminate Hc.
  - split; [exact Hkept|].
    rewrite Hkept. intros Heq. vm_compute in Heq. discriminate Heq.
Defined.

Lemma processRandaoReveal_skip_validation_witness :
  let blk := Sample.block 0 Sample.forged in
  let p := processRandaoReveal Bytes.le32 Sample.sp8 Sample.skip blk in
  let p' :=
    @processRandaoReveal MemValidator Sample.keyless ForkData ForkData_ForkDataT
      Bytes.le32 {| cs := Sample.spec8; signer := Sample.lenient |}
      Sample.skip blk in
  GetSkipValidateRandao Sample.skip = true /\
  Forall (fun c => is_verify c = false) (run Sample.strict p Sample.state).2 /\
  run Sample.strict p Sample.state = run Sample.lenient p' Sample.state /\
  exists newMix : Bytes32,
    buildRandaoMix Sample.mixX Sample.forged = Some newMix /\
    let written := UpdateRandaoMixAtIndex Sample.state 3 newMix in
    run Sample.strict p Sample.state =
      (ended written.1, written.2,
       [CGetSlot (Ok 100);
        CValidatorByIndex 0 (Ok Sample.proposer0);
        CGetGenesisValidatorsRoot (Ok Sample.zero32);
        CGetRandaoMixAtIndex 3 (Ok Sample.mixX);
        CUpdateRandaoMixAtIndex 3 newMix written.1]).
Proof.
  intros blk p p'.
  assert (HV : EpochsPerHistoricalVector Sample.spec8 <> 0)
    by (vm_compute; discriminate).
  destruct (processRandaoReveal_skip_validation
              (VT := MemValidator_ValidatorT) (BS := MemState_BeaconStateT)
              (FDT := ForkData_ForkDataT) Bytes.le32
              Sample.spec8 Sample.strict Sample.lenient Sample.keyless
              Sample.skip blk Sample.state eq_refl)
    as [Hquiet [Hsame Hupdate]].
  split; [reflexivity|]. split; [exact Hquiet|]. split; [exact Hsame|].
  exact (Hupdate 100 Sample.proposer0 Sample.zero32 Sample.mixX
           eq_refl eq_refl eq_refl HV eq_refl).
Defined.

Lemma processRandaoReveal_failed_read_witness :
  let r :=
    run Sample.strict
      (processRandaoReveal Bytes.le32 Sample.sp8 Sample.skip
         (Sample.block 0 Sample.reveal)) Sample.no_mixes in
  In (CGetRandaoMixAtIndex 3 (Err StoreError)) r.2 /\
  r.1.1 = Fail StoreError /\ r.1.2 = Sample.no_mixes /\
  Forall (fun c => is_update c = false) r.2.
Proof.
  intros r.
  assert (Hrun : run Sample.strict
            (processRandaoReveal Bytes.le32 Sample.sp8 Sample.skip
               (Sample.block 0 Sample.reveal)) Sample.no_mixes
          = (r.1.1, r.1.2, r.2)) by (vm_compute; reflexivity).
  assert (Hin : In (CGetRandaoMixAtIndex 3 (Err StoreError)) r.2)
    by (vm_compute; tauto).
  split; [exact Hin|].
  apply (processRandaoReveal_failed_read (FD := ForkData) Bytes.le32
           Sample.sp8 Sample.skip (Sample.block 0 Sample.reveal)
           Sample.no_mixes r.1.2 r.1.1 r.2 StoreError Hrun).
  exists (CGetRandaoMixAtIndex 3 (Err StoreError)).
  split; [exact Hin|reflexivity].
Defined.

Lemma processRandaoReveal_invalid_proposer_any_context_witness :
  let p ctx :=
    processRandaoReveal Bytes.le32 Sample.sp8 ctx (Sample.block 5 Sample.reveal) in
  ValidatorByIndex Sample.state 5 = Err InvalidProposer /\
  run Sample.strict (p Sample.validate) Sample.state =
    run Sample.strict (p Sample.skip) Sample.state /\
  run Sample.strict (p Sample.skip) Sample.state =
    (Fail InvalidProposer, Sample.state,
     [CGetSlot (Ok 100); CValidatorByIndex 5 (Err InvalidProposer)]).
Proof.
  intros p.
  assert (Hprop : ValidatorByIndex Sample.state 5 = Err InvalidProposer)
    by reflexivity.
  destruct (processRandaoReveal_invalid_proposer_any_context
              (FD := ForkData) (BS := MemState_BeaconStateT) Bytes.le32
              Sample.sp8 (Sample.block 5 Sample.reveal) Sample.state
              InvalidProposer Hprop)
    as [Hsame [_ Hlookup]].
  split; [exact Hprop|]. split.
  - exact (Hsame Sample.validate Sample.skip).
  - exact (Hlookup 100 Sample.skip eq_refl).
Defined.

(** The deposit domain of the consensus specification for the genesis fork
    version and a zero genesis validators root. *)
Example ComputeDomain_deposit :
  ComputeDomain Sample.genesisFork Sample.domainTypeDeposit =
  Return
    [x03; x00; x00; x00; xf5; xa5; xfd; x42; xd1; x6a; x20; x30; x27; x98; xef; x6e;
     xd3; x09; x97; x9b; x43; x00; x3d; x23; x20; xd9; xf0; xe8; xea; x98; x31; xa9].
Proof. vm_compute. reflexivity. Qed.

(** The epoch-boundary scenario of the specification: the vector has 8
    entries and the mix of index 3 is [mixX]; the reset of epoch 3 copies it
    to index 4, and a reveal processed in epoch 4 replaces it by its xor
    with the hash of the reveal. *)
Example epoch_boundary_scenario :
  let st1 :=
    (run Sample.strict (processRandaoMixesReset Sample.sp8) Sample.state).1.2 in
  let st2 :=
    (run Sample.strict
       (processRandaoReveal Bytes.le32 Sample.sp8 Sample.skip
          (Sample.block 1 Sample.reveal))
       (Sample.at_slot 128 st1)).1.2 in
  ms_randao_mixes st1 !! 4%nat = Some Sample.mixX /\
  ms_randao_mixes st2 !! 4%nat =
    Some (Bytes.xor_list Sample.mixX (SHA256.Hash Sample.reveal)).
Proof. vm_compute. split; reflexivity. Qed.

(** The index of the reset is computed on [uint64]: at the last epoch
    (one slot per epoch, slot 2^64 - 1, a vector of 3 entries) the sum wraps
    to 0 and the mix of index 0 is written back at index 0. *)
Example reset_at_last_epoch :
  (run Sample.strict (processRandaoMixesReset Sample.sp3)
     (Sample.at_slot (2 ^ 64 - 1) Sample.state)).2 =
  [CGetSlot (Ok (2 ^ 64 - 1));
   CGetRandaoMixAtIndex 0 (Ok Sample.mixY);
   CUpdateRandaoMixAtIndex 0 Sample.mixY None].
Proof. vm_compute. reflexivity. Qed.

(** ** Engine requests *)

(** The check of a new-payload request is the answer of the execution
    engine's block constructor on the payload's fields, the versioned
    hashes and the parent beacon block root; the two flags of the request
    play no part. *)
Lemma HasValidVersionedAndBlockHashes_ignores_flags
    {P W : Type} `{ExecutionPayloadT P W}
    (toBlock : ExecutableData W -> list ExecutionHash ->
               option ExecutionHash -> option error)
    (payload : P) (hashes : list ExecutionHash) (root : option Root)
    (skip skip' optimistic optimistic' : bool) :
  HasValidVersionedAndBlockHashes toBlock
    (BuildNewPayloadRequest payload hashes root skip optimistic) =
  HasValidVersionedAndBlockHashes toBlock
    (BuildNewPayloadRequest payload hashes root skip' optimistic').
Proof. reflexivity. Qed.

(** ** Further properties of the randao steps *)

Lemma u64_rem_Some (a b n : N) :
  u64_rem a b = Some n -> b <> 0 /\ n = a mod b.
Proof.
  unfold u64_rem. destruct (N.eqb_spec b 0) as [Hz|Hnz]; [discriminate|].
  intros Heq. injection Heq as <-. split; [exact Hnz|reflexivity].
Qed.

Lemma u64_rem_None (a b : N) : u64_rem a b = None -> b = 0.
Proof.
  unfold u64_rem. destruct (N.eqb_spec b 0) as [Hz|Hnz];
    [intros _; exact Hz|discriminate].
Qed.

Section RandaoRuns.

Context {V St FD : Type}.
Context {VT : ValidatorT V} {BS : BeaconStateT St V} {FDT : ForkDataT FD}.
Variable FromUint32 : N -> Version.

(** What a run of [processRandaoReveal] that returns nil has gone
    through. *)
Lemma processRandaoReveal_success_inv
    (sp : StateProcessor) (ctx : Context) (blk : BeaconBlock) (st st' : St)
    (trace : list (Call V)) :
  run (signer sp) (processRandaoReveal FromUint32 sp ctx blk) st =
    (Return tt, st', trace) ->
  exists (slot : N) (proposer : V) (gvr : Root) (prevMix newMix : Bytes32),
    GetSlot st = Ok slot /\
    ValidatorByIndex st (GetProposerIndex blk) = Ok proposer /\
    GetGenesisValidatorsRoot st = Ok gvr /\
    EpochsPerHistoricalVector (cs sp) <> 0 /\
    (GetSkipValidateRandao ctx = true \/
     VerifySignature (signer sp) (GetPubkey proposer)
       (randaoSigningRoot FromUint32 sp slot gvr)
       (GetRandaoReveal (GetBody blk)) = None) /\
    GetRandaoMixAtIndex st (mixIndex (cs sp) slot) = Ok prevMix /\
    buildRandaoMix prevMix (GetRandaoReveal (GetBody blk)) = Some newMix /\
    UpdateRandaoMixAtIndex st (mixIndex (cs sp) slot) newMix = (None, st').
Proof.
  unfold mixIndex, randaoSigningRoot.
  run_cases; intros Hrun; simplify_eq;
    match goal with
    | H : u64_rem _ _ = Some _ |- _ => apply u64_rem_Some in H as [HV ->]
    end;
    do 5 eexists; repeat apply conj; eauto.
Qed.

(** X1: with validation enabled and a reveal the signer accepts, the
    verification comes before the read of the previous mix; the update is
    then called at index [epoch mod V] with [buildRandaoMix] of that mix
    and the reveal, and its answer and the state it leaves are those of the
    call. *)
Theorem processRandaoReveal_validated_success
    (sp : StateProcessor) (ctx : Context) (blk : BeaconBlock) (st : St)
    (slot : N) (proposer : V) (gvr : Root) (prevMix : Bytes32) :
  GetSkipValidateRandao ctx = false ->
  GetSlot st = Ok slot ->
  ValidatorByIndex st (GetProposerIndex blk) = Ok proposer ->
  GetGenesisValidatorsRoot st = Ok gvr ->
  VerifySignature (signer sp) (GetPubkey proposer)
    (randaoSigningRoot FromUint32 sp slot gvr)
    (GetRandaoReveal (GetBody blk)) = None ->
  EpochsPerHistoricalVector (cs sp) <> 0 ->
  GetRandaoMixAtIndex st (mixIndex (cs sp) slot) = Ok prevMix ->
  exists newMix : Bytes32,
    buildRandaoMix prevMix (GetRandaoReveal (GetBody blk)) = Some newMix /\
    let written := UpdateRandaoMixAtIndex st (mixIndex (cs sp) slot) newMix in
    run (signer sp) (processRandaoReveal FromUint32 sp ctx blk) st =
      (ended written.1, written.2,
       [CGetSlot (Ok slot);
        CValidatorByIndex (GetProposerIndex blk) (Ok proposer);
        CGetGenesisValidatorsRoot (Ok gvr);
        CVerifySignature (GetPubkey proposer)
          (randaoSigningRoot FromUint32 sp slot gvr)
          (GetRandaoReveal (GetBody blk)) None;
        CGetRandaoMixAtIndex (mixIndex (cs sp) slot) (Ok prevMix);
        CUpdateRandaoMixAtIndex (mixIndex (cs sp) slot) newMix written.1]).
Proof.
  intros Hskip Hslot Hprop Hgvr Hsig HV Hmix.
  destruct (buildRandaoMix_total prevMix (GetRandaoReveal (GetBody blk)))
    as [newMix [Hbuild _]].
  exists newMix. split; [exact Hbuild|].
  unfold mixIndex, randaoSigningRoot in *.
  unfold processRandaoReveal. rewrite Hskip.
  cbn [run bind try check pure handle negb].
  rewrite Hslot. cbn [run bind try check pure handle].
  rewrite Hprop. cbn [run bind try check pure handle].
  rewrite Hgvr. cbn [run bind try check pure handle].
  rewrite Hsig. cbn [run bind try check pure handle].
  rewrite !(u64_rem_positive _ _ HV). cbn [run bind try check pure handle].
  rewrite Hmix. cbn [run bind try check pure handle].
  rewrite Hbuild. cbn [run bind try check pure handle].
  destruct (UpdateRandaoMixAtIndex st _ newMix) as [[err|] st'];
    reflexivity.
Qed.

(** X2: when the signer accepts the block's reveal for the proposer and
    the signing root that the reads give, the flag of the context changes
    nothing but the call to the signer: the outcome and the final state
    are the same for any two contexts, and so are the calls made to the
    state. *)
Theorem processRandaoReveal_flag_only_adds_verification
    (sp : StateProcessor) (ctx ctx' : Context) (blk : BeaconBlock) (st : St) :
  (forall slot proposer gvr,
      GetSlot st = Ok slot ->
      ValidatorByIndex st (GetProposerIndex blk) = Ok proposer ->
      GetGenesisValidatorsRoot st = Ok gvr ->
      VerifySignature (signer sp) (GetPubkey proposer)
        (randaoSigningRoot FromUint32 sp slot gvr)
        (GetRandaoReveal (GetBody blk)) = None) ->
  let r := run (signer sp) (processRandaoReveal FromUint32 sp ctx blk) st in
  let r' := run (signer sp) (processRandaoReveal FromUint32 sp ctx' blk) st in
  r.1 = r'.1 /\ without_verify r.2 = without_verify r'.2.
Proof.
  intros Hacc r r'. subst r r'. unfold randaoSigningRoot in Hacc.
  unfold processRandaoReveal.
  cbn [run bind try check pure handle negb].
  destruct (GetSlot st) as [slot|] eqn:Hslot;
    cbn [run bind try check pure handle negb]; [|split; reflexivity].
  destruct (ValidatorByIndex st (GetProposerIndex blk)) as [proposer|]
    eqn:Hprop;
    cbn [run bind try check pure handle negb]; [|split; reflexivity].
  destruct (GetGenesisValidatorsRoot st) as [gvr|] eqn:Hgvr;
    cbn [run bind try check pure handle negb]; [|split; reflexivity].
  specialize (Hacc slot proposer gvr eq_refl eq_refl eq_refl).
  destruct (GetSkipValidateRandao ctx), (GetSkipValidateRandao ctx');
    cbn [run bind try check pure handle negb];
    rewrite ?Hacc; cbn [run bind try check pure handle negb];
    repeat run_case; split; reflexivity.
Qed.

(** X3: in every run of [processRandaoReveal] the update is called at
    most once and as the last call, at the index of the epoch of the slot
    read and with [buildRandaoMix] of the mix read there; the outcome is
    the answer of that call, a run that returns nil has made it, and a run
    without it leaves the state untouched. *)
Theorem processRandaoReveal_single_write
    (sp : StateProcessor) (ctx : Context) (blk : BeaconBlock) (st st' : St)
    (o : outcome unit) (trace : list (Call V)) :
  run (signer sp) (processRandaoReveal FromUint32 sp ctx blk) st =
    (o, st', trace) ->
  (Forall (fun c => is_update c = false) trace -> st' = st) /\
  (o = Return tt ->
   exists i m, last trace = Some (CUpdateRandaoMixAtIndex i m None)) /\
  (forall i m r,
      In (CUpdateRandaoMixAtIndex i m r) trace ->
      last trace = Some (CUpdateRandaoMixAtIndex i m r) /\
      length (List.filter is_update trace) = 1%nat /\
      o = ended r /\
      exists slot prevMix,
        In (CGetSlot (Ok slot)) trace /\
        i = mixIndex (cs sp) slot /\
        In (CGetRandaoMixAtIndex i (Ok prevMix)) trace /\
        buildRandaoMix prevMix (GetRandaoReveal (GetBody blk)) = Some m).
Proof.
  unfold mixIndex.
  run_cases; intros Hrun; simplify_eq;
    repeat match goal with
      | H : u64_rem _ _ = Some _ |- _ => apply u64_rem_Some in H as [? ->]
      end;
    (split; [|split]);
    try (intros HF;
         first [reflexivity
               |rewrite !Forall_cons in HF; simpl in HF;
                exfalso; intuition discriminate]);
    try (intros Ho; try discriminate Ho; eexists _, _; reflexivity);
    intros i m r Hin; simpl in Hin;
    repeat match goal with
      | H : _ \/ _ |- _ => destruct H as [H|H]
      end;
    try contradiction; try discriminate; simplify_eq;
    (split; [reflexivity|]); (split; [reflexivity|]);
    (split; [reflexivity|]);
    eexists _, _; repeat apply conj; simpl; eauto 10.
Qed.

(** X4: with a historical vector of length 0 the index cannot be
    computed: [processRandaoReveal] never returns nil and never calls the
    update, and it panics once its three reads and the verification (when
    asked for) have gone through; [processRandaoMixesReset] panics right
    after reading the slot. *)
Theorem zero_vector_panics
    (sp : StateProcessor) (ctx : Context) (blk : BeaconBlock) (st : St) :
  EpochsPerHistoricalVector (cs sp) = 0 ->
  let r := run (signer sp) (processRandaoReveal FromUint32 sp ctx blk) st in
  r.1.1 <> Return tt /\ r.1.2 = st /\
  Forall (fun c => is_update c = false) r.2 /\
  (forall slot proposer gvr,
      GetSlot st = Ok slot ->
      ValidatorByIndex st (GetProposerIndex blk) = Ok proposer ->
      GetGenesisValidatorsRoot st = Ok gvr ->
      GetSkipValidateRandao ctx = true \/
      VerifySignature (signer sp) (GetPubkey proposer)
        (randaoSigningRoot FromUint32 sp slot gvr)
        (GetRandaoReveal (GetBody blk)) = None ->
      r.1.1 = Panic) /\
  (forall slot,
      GetSlot st = Ok slot ->
      run (signer sp) (processRandaoMixesReset sp) st =
        (Panic, st, [CGetSlot (Ok slot)])).
Proof.
  intros HV r. subst r.
  assert (Hrem : forall a, u64_rem a (EpochsPerHistoricalVector (cs sp)) = None)
    by (intros a; rewrite HV; reflexivity).
  split; [|split; [|split; [|split]]].
  - unfold processRandaoReveal.
    cbn [run bind try check pure handle negb].
    repeat (rewrite ?Hrem; cbn [run bind try check pure handle negb];
            run_case);
      rewrite ?Hrem; cbn [run bind try check pure handle negb fst snd];
      discriminate.
  - unfold processRandaoReveal.
    cbn [run bind try check pure handle negb].
    repeat (rewrite ?Hrem; cbn [run bind try check pure handle negb];
            run_case);
      rewrite ?Hrem; cbn [run bind try check pure handle negb fst snd];
      reflexivity.
  - unfold processRandaoReveal.
    cbn [run bind try check pure handle negb].
    repeat (rewrite ?Hrem; cbn [run bind try check pure handle negb];
            run_case);
      rewrite ?Hrem; cbn [run bind try check pure handle negb fst snd];
      repeat constructor.
  - intros slot proposer gvr Hslot Hprop Hgvr Hok.
    unfold randaoSigningRoot in Hok. unfold processRandaoReveal.
    cbn [run bind try check pure handle negb].
    rewrite Hslot. cbn [run bind try check pure handle negb].
    rewrite Hprop. cbn [run bind try check pure handle negb].
    rewrite Hgvr. cbn [run bind try check pure handle negb].
    destruct Hok as [Hskip|Hsig].
    + rewrite Hskip. cbn [run bind try check pure handle negb].
      rewrite Hrem. reflexivity.
    + destruct (GetSkipValidateRandao ctx);
        cbn [run bind try check pure handle negb];
        rewrite ?Hsig; cbn [run bind try check pure handle negb];
        rewrite Hrem; reflexivity.
  - intros slot Hslot. unfold processRandaoMixesReset.
    cbn [run bind try check pure handle]. rewrite Hslot.
    cbn [run bind try check pure handle]. rewrite Hrem. reflexivity.
Qed.

(** What a run of [processRandaoMixesReset] that returns nil has gone
    through. *)
Lemma processRandaoMixesReset_success_inv
    (sp : StateProcessor) (st st' : St) (trace : list (Call V)) :
  run (signer sp) (processRandaoMixesReset sp) st = (Return tt, st', trace) ->
  exists (slot : N) (X : Bytes32),
    let e := SlotToEpoch (cs sp) slot in
    let Vlen := EpochsPerHistoricalVector (cs sp) in
    GetSlot st = Ok slot /\
    Vlen <> 0 /\
    GetRandaoMixAtIndex st (e mod Vlen) = Ok X /\
    UpdateRandaoMixAtIndex st (u64_add e 1 mod Vlen) X = (None, st') /\
    trace = [CGetSlot (Ok slot);
             CGetRandaoMixAtIndex (e mod Vlen) (Ok X);
             CUpdateRandaoMixAtIndex (u64_add e 1 mod Vlen) X None].
Proof.
  run_cases; intros Hrun; simplify_eq;
    repeat match goal with
      | H : u64_rem _ _ = Some _ |- _ => apply u64_rem_Some in H as [? ->]
      end;
    do 2 eexists; repeat apply conj; eauto.
Qed.

(** X5: if a read of the state made by [processRandaoMixesReset] (slot or
    mix) fails, the call returns that read's error, the state is unchanged
    and the update is never called. *)
Theorem processRandaoMixesReset_failed_read
    (sp : StateProcessor) (st st' : St) (o : outcome unit)
    (trace : list (Call V)) (e : error) :
  run (signer sp) (processRandaoMixesReset sp) st = (o, st', trace) ->
  (exists c, In c trace /\ failed_read c = Some e) ->
  o = Fail e /\ st' = st /\ Forall (fun c => is_update c = false) trace.
Proof.
  run_cases;
    intros Hrun [c [Hin Hfail]]; injection Hrun as <- <- <-;
    simpl in Hin;
    repeat match goal with
      | H : _ \/ _ |- _ => destruct H as [<-|H]
      end;
    try contradiction; simpl in Hfail; try discriminate Hfail;
    injection Hfail as <-;
    (split; [reflexivity|split; [reflexivity|repeat constructor]]).
Qed.

(** X6: in every run of [processRandaoMixesReset] the signer is never
    called and at most three calls are made; the update is called at most
    once and as the last call, at index [(epoch + 1) mod V] (a [uint64]
    sum) with the very mix read at [epoch mod V]; the outcome is the answer
    of that call, and a run without it leaves the state untouched. *)
Theorem processRandaoMixesReset_single_write
    (sp : StateProcessor) (st st' : St) (o : outcome unit)
    (trace : list (Call V)) :
  run (signer sp) (processRandaoMixesReset sp) st = (o, st', trace) ->
  Forall (fun c => is_verify c = false) trace /\
  (length trace <= 3)%nat /\
  (Forall (fun c => is_update c = false) trace -> st' = st) /\
  (forall j m r,
      In (CUpdateRandaoMixAtIndex j m r) trace ->
      last trace = Some (CUpdateRandaoMixAtIndex j m r) /\
      length (List.filter is_update trace) = 1%nat /\
      o = ended r /\
      exists slot,
        let e := SlotToEpoch (cs sp) slot in
        let Vlen := EpochsPerHistoricalVector (cs sp) in
        In (CGetSlot (Ok slot)) trace /\
        j = u64_add e 1 mod Vlen /\
        In (CGetRandaoMixAtIndex (e mod Vlen) (Ok m)) trace).
Proof.
  clear FromUint32.
  run_cases; intros Hrun; simplify_eq;
    repeat match goal with
      | H : u64_rem _ _ = Some _ |- _ => apply u64_rem_Some in H as [? ->]
      end;
    (split; [repeat constructor|]);
    (split; [simpl; lia|]);
    (split;
      [intros HF;
       first [reflexivity
             |rewrite !Forall_cons in HF; simpl in HF;
              exfalso; intuition discriminate]
      |]);
    intros j m r Hin; simpl in Hin;
    repeat match goal with
      | H : _ \/ _ |- _ => destruct H as [H|H]
      end;
    try contradiction; try discriminate; simplify_eq;
    (split; [reflexivity|]); (split; [reflexivity|]);
    (split; [reflexivity|]);
    eexists; repeat apply conj; simpl; eauto 10.
Qed.

(** *** On a store that keeps what is written *)

Hypothesis laws : StoreLaws St V.

(** X7: after a run of [processRandaoReveal] that returns nil, the mix of
    the current epoch's index reads as [buildRandaoMix] of the mix that
    was there and the block's reveal, every other index reads as before,
    and so does the slot. *)
Theorem processRandaoReveal_writes_one_index
    (sp : StateProcessor) (ctx : Context) (blk : BeaconBlock) (st st' : St)
    (trace : list (Call V)) :
  run (signer sp) (processRandaoReveal FromUint32 sp ctx blk) st =
    (Return tt, st', trace) ->
  exists (slot : N) (prevMix newMix : Bytes32),
    GetSlot st = Ok slot /\
    GetRandaoMixAtIndex st (mixIndex (cs sp) slot) = Ok prevMix /\
    buildRandaoMix prevMix (GetRandaoReveal (GetBody blk)) = Some newMix /\
    GetRandaoMixAtIndex st' (mixIndex (cs sp) slot) = Ok newMix /\
    (forall j, j <> mixIndex (cs sp) slot ->
               GetRandaoMixAtIndex st' j = GetRandaoMixAtIndex st j) /\
    GetSlot st' = Ok slot.
Proof.
  intros Hrun.
  destruct (processRandaoReveal_success_inv _ _ _ _ _ _ Hrun)
    as (slot & proposer & gvr & prevMix & newMix &
        Hslot & _ & _ & _ & _ & Hmix & Hbuild & Hupd).
  exists slot, prevMix, newMix.
  split; [exact Hslot|]. split; [exact Hmix|]. split; [exact Hbuild|].
  split; [exact (update_get_same laws _ _ _ _ Hupd)|].
  split.
  - intros j Hj. apply (update_get_other laws _ _ _ _ _ Hupd).
    intros Heq. apply Hj. symmetry. exact Heq.
  - rewrite (update_keeps_slot laws _ _ _ _ Hupd). exact Hslot.
Qed.

(** X8: running [processRandaoMixesReset] again after a run that returned
    nil: the second run reads the same slot and the same mix and calls the
    update with the same index and the same value; its outcome is the
    answer of that call, and when the call succeeds every mix index and
    the slot read as they did after the first run. *)
Theorem processRandaoMixesReset_repeated
    (sp : StateProcessor) (st st1 st2 : St) (o2 : outcome unit)
    (trace1 trace2 : list (Call V)) :
  run (signer sp) (processRandaoMixesReset sp) st =
    (Return tt, st1, trace1) ->
  run (signer sp) (processRandaoMixesReset sp) st1 = (o2, st2, trace2) ->
  exists (slot : N) (X : Bytes32) (r : option error),
    let e := SlotToEpoch (cs sp) slot in
    let Vlen := EpochsPerHistoricalVector (cs sp) in
    trace1 = [CGetSlot (Ok slot);
              CGetRandaoMixAtIndex (e mod Vlen) (Ok X);
              CUpdateRandaoMixAtIndex (u64_add e 1 mod Vlen) X None] /\
    trace2 = [CGetSlot (Ok slot);
              CGetRandaoMixAtIndex (e mod Vlen) (Ok X);
              CUpdateRandaoMixAtIndex (u64_add e 1 mod Vlen) X r] /\
    o2 = ended r /\
    (r = None ->
     GetSlot st2 = GetSlot st1 /\
     forall k, GetRandaoMixAtIndex st2 k = GetRandaoMixAtIndex st1 k).
Proof.
  intros Hrun1 Hrun2.
  destruct (processRandaoMixesReset_success_inv _ _ _ _ Hrun1)
    as (slot & X & Hslot & HV & Hmix & Hupd1 & ->).
  cbv zeta in *.
  set (e := SlotToEpoch (cs sp) slot) in *.
  set (Vlen := EpochsPerHistoricalVector (cs sp)) in *.
  assert (Hmix1 : GetRandaoMixAtIndex st1 (e mod Vlen) = Ok X).
  { destruct (N.eq_dec (u64_add e 1 mod Vlen) (e mod Vlen)) as [Heq|Hne].
    - rewrite <- Heq. exact (update_get_same laws _ _ _ _ Hupd1).
    - rewrite (update_get_other laws _ _ _ _ _ Hupd1 Hne). exact Hmix. }
  revert Hrun2. unfold processRandaoMixesReset.
  cbn [run bind try check pure handle].
  rewrite (update_keeps_slot laws _ _ _ _ Hupd1), Hslot.
  cbn [run bind try check pure handle].
  fold e Vlen. rewrite !(u64_rem_positive _ _ HV).
  cbn [run bind try check pure handle]. rewrite Hmix1.
  cbn [run bind try check pure handle].
  destruct (UpdateRandaoMixAtIndex st1 (u64_add e 1 mod Vlen) X)
    as [r st2'] eqn:Hupd2.
  intros Hrun2. exists slot, X, r.
  split; [reflexivity|].
  destruct r as [err|]; cbn [run] in Hrun2; injection Hrun2 as <- <- <-.
  - split; [reflexivity|]. split; [reflexivity|]. discriminate.
  - split; [reflexivity|]. split; [reflexivity|]. intros _. split.
    + rewrite (update_keeps_slot laws _ _ _ _ Hupd2).
      rewrite (update_keeps_slot laws _ _ _ _ Hupd1). exact Hslot.
    + intros k.
      destruct (N.eq_dec (u64_add e 1 mod Vlen) k) as [<-|Hne].
      * rewrite (update_get_same laws _ _ _ _ Hupd2).
        rewrite (update_get_same laws _ _ _ _ Hupd1). reflexivity.
      * exact (update_get_other laws _ _ _ _ _ Hupd2 Hne).
Qed.



End RandaoRuns.

(** X11: when validation is skipped, the fork data plays no part: two
    processors whose chain specs agree on the epoch of a slot and on the
    length of the historical vector run alike, whatever their fork
    versions, domain types, fork-data implementations and signers. *)
Theorem processRandaoReveal_skip_ignores_fork
    {V St FD FD' : Type} {VT : ValidatorT V} {BS : BeaconStateT St V}
    (FDT : ForkDataT FD) (FDT' : ForkDataT FD')
    (FromUint32 FromUint32' : N -> Version)
    (sp sp' : StateProcessor) (ctx : Context) (blk : BeaconBlock) (st : St) :
  GetSkipValidateRandao ctx = true ->
  (forall slot, SlotToEpoch (cs sp) slot = SlotToEpoch (cs sp') slot) ->
  EpochsPerHistoricalVector (cs sp) = EpochsPerHistoricalVector (cs sp') ->
  run (signer sp)
    (@processRandaoReveal V VT FD FDT FromUint32 sp ctx blk) st =
  run (signer sp')
    (@processRandaoReveal V VT FD' FDT' FromUint32' sp' ctx blk) st.
Proof.
  intros Hskip Hepoch HV. unfold processRandaoReveal.
  rewrite Hskip, HV.
  cbn [run bind try check pure handle negb].
  repeat (rewrite ?Hepoch; cbn [run bind try check pure handle negb];
          run_case);
    rewrite ?Hepoch; reflexivity.
Qed.

(** ** Composing mixes *)

Lemma xor_swap (a b c : byte) :
  Bytes.xor (Bytes.xor a b) c = Bytes.xor (Bytes.xor a c) b.
Proof.
  unfold Bytes.xor.
  rewrite !to_N_of_N by (apply lxor_lt_256; apply to_N_lt_256).
  rewrite !N.lxor_assoc.
  rewrite (N.lxor_comm (Byte.to_N b) (Byte.to_N c)). reflexivity.
Qed.

Lemma xor_list_swap (m h k : list byte) :
  Bytes.xor_list (Bytes.xor_list m h) k = Bytes.xor_list (Bytes.xor_list m k) h.
Proof.
  revert h k. induction m as [|x m IH]; intros [|y h] [|z k]; simpl;
    try reflexivity.
  rewrite xor_swap, IH. reflexivity.
Qed.

(** X12: reveals mix in any order: folding two reveals into a 32-byte mix
    gives the same mix whichever comes first; and folding the same reveal
    in twice gives the mix back. *)
Theorem buildRandaoMix_compose (m : Bytes32) (r1 r2 : BLSSignature) :
  length m = 32%nat ->
  exists a b c : Bytes32,
    buildRandaoMix m r1 = Some a /\
    buildRandaoMix m r2 = Some c /\
    buildRandaoMix a r2 = Some b /\
    buildRandaoMix c r1 = Some b /\
    buildRandaoMix a r1 = Some m.
Proof.
  intros Hm.
  assert (Hlen : forall r, length (Bytes.xor_list m (SHA256.Hash r)) = 32%nat)
    by (intros r; rewrite xor_list_length, Hash_length, Hm; reflexivity).
  exists (Bytes.xor_list m (SHA256.Hash r1)),
         (Bytes.xor_list (Bytes.xor_list m (SHA256.Hash r1)) (SHA256.Hash r2)),
         (Bytes.xor_list m (SHA256.Hash r2)).
  split; [apply buildRandaoMix_xor; exact Hm|].
  split; [apply buildRandaoMix_xor; exact Hm|].
  split; [apply buildRandaoMix_xor; apply Hlen|].
  split.
  - rewrite (xor_list_swap m (SHA256.Hash r1) (SHA256.Hash r2)).
    apply buildRandaoMix_xor. apply Hlen.
  - rewrite buildRandaoMix_xor by apply Hlen.
    rewrite xor_list_involutive by (rewrite Hash_length, Hm; reflexivity).
    reflexivity.
Qed.

Lemma buildRandaoMix_compose_witness :
  length Sample.mixX = 32%nat /\
  exists a b c : Bytes32,
    buildRandaoMix Sample.mixX Sample.reveal = Some a /\
    buildRandaoMix Sample.mixX Sample.forged = Some c /\
    buildRandaoMix a Sample.forged = Some b /\
    buildRandaoMix c Sample.reveal = Some b /\
    buildRandaoMix a Sample.reveal = Some Sample.mixX.
Proof.
  split; [reflexivity|].
  apply (buildRandaoMix_compose Sample.mixX Sample.reveal Sample.forged).
  reflexivity.
Defined.

(** ** Domain separation *)

(** X13: whatever the hash tree root of the fork data is (32 bytes), the
    domain starts with the 4-byte domain type and continues with the first
    28 bytes of the root: two domain types give domains that agree from
    byte 4 on, and that are equal only if the domain types are. *)
Theorem ComputeDomain_domain_separation
    (M : Merkleizable ForkData) (fv : ForkData) (root : list byte)
    (domainType domainType' : DomainType) :
  HashTreeRoot fv = Ok root ->
  length root = 32%nat ->
  length domainType = 4%nat ->
  length domainType' = 4%nat ->
  exists d d' : Domain,
    @ComputeDomain M fv domainType = Return d /\
    @ComputeDomain M fv domainType' = Return d' /\
    take 4 d = domainType /\
    drop 4 d = take 28 root /\
    drop 4 d' = drop 4 d /\
    (d = d' <-> domainType = domainType').
Proof.
  intros Hroot Hlen Hd Hd'.
  assert (Hsize : forall dt : DomainType,
             length dt = 4%nat ->
             to_array 32 (dt ++ take 28 root) = Some (dt ++ take 28 root)).
  { intros dt Hdt. apply to_array_exact.
    rewrite length_app, length_take, Hdt, Hlen. reflexivity. }
  exists (domainType ++ take 28 root), (domainType' ++ take 28 root).
  unfold ComputeDomain. rewrite Hroot, (Hsize _ Hd), (Hsize _ Hd').
  split; [reflexivity|]. split; [reflexivity|].
  split; [rewrite take_app_length' by (symmetry; exact Hd); reflexivity|].
  split; [rewrite drop_app_length' by (symmetry; exact Hd); reflexivity|].
  split; [rewrite !drop_app_length' by (symmetry; assumption); reflexivity|].
  split.
  - intros Heq. apply (f_equal (take 4)) in Heq.
    rewrite !take_app_length' in Heq by (symmetry; assumption). exact Heq.
  - intros ->. reflexivity.
Qed.

Lemma ComputeDomain_domain_separation_witness :
  let root := SHA256.Hash ((Sample.version ++ Bytes.make 28) ++ Sample.zero32) in
  exists d d' : Domain,
    ComputeDomain Sample.forkData Sample.domainType = Return d /\
    ComputeDomain Sample.forkData Sample.domainTypeDeposit = Return d' /\
    take 4 d = Sample.domainType /\
    drop 4 d = take 28 root /\
    drop 4 d' = drop 4 d /\
    (d = d' <-> Sample.domainType = Sample.domainTypeDeposit).
Proof.
  intros root.
  apply (ComputeDomain_domain_separation ForkData_Merkleizable
           Sample.forkData root Sample.domainType Sample.domainTypeDeposit).
  - reflexivity.
  - apply Hash_length.
  - reflexivity.
  - reflexivity.
Defined.

(** ** The further properties on the state of the specification *)

Lemma MemState_laws : StoreLaws MemState MemValidator.
Proof.
  split.
  - exact MemState_get_after_update.
  - intros st st' i j m.
    cbn [UpdateRandaoMixAtIndex GetRandaoMixAtIndex MemState_BeaconStateT].
    unfold MemState_UpdateRandaoMixAtIndex, MemState_GetRandaoMixAtIndex.
    destruct (Nat.ltb_spec (N.to_nat i) (length (ms_randao_mixes st)))
      as [Hlt|Hge]; [|discriminate].
    intros Heq Hne. injection Heq as <-. cbn [ms_randao_mixes].
    rewrite list_lookup_insert_ne; [reflexivity|].
    intros Hnat. apply Hne. apply N2Nat.inj. exact Hnat.
  - intros st st' i m.
    cbn [UpdateRandaoMixAtIndex GetSlot MemState_BeaconStateT].
    unfold MemState_UpdateRandaoMixAtIndex, MemState_GetSlot.
    destruct (N.to_nat i <? length (ms_randao_mixes st))%nat;
      [|discriminate].
    intros Heq. injection Heq as <-. reflexivity.
Qed.

Lemma processRandaoReveal_validated_success_witness :
  exists newMix : Bytes32,
    buildRandaoMix Sample.mixX Scenario.signature = Some newMix /\
    let written := UpdateRandaoMixAtIndex Sample.state 3 newMix in
    run Sample.strict
      (processRandaoReveal Bytes.le32 Sample.sp8 Sample.validate
         (Sample.block 0 Scenario.signature)) Sample.state =
      (ended written.1, written.2,
       [CGetSlot (Ok 100);
        CValidatorByIndex 0 (Ok Sample.proposer0);
        CGetGenesisValidatorsRoot (Ok Sample.zero32);
        CVerifySignature (Pubkey Sample.proposer0)
          (randaoSigningRoot (FD := ForkData) Bytes.le32 Sample.sp8 100
             Sample.zero32)
          Scenario.signature None;
        CGetRandaoMixAtIndex 3 (Ok Sample.mixX);
        CUpdateRandaoMixAtIndex 3 newMix written.1]).
Proof.
  assert (HV : EpochsPerHistoricalVector (cs Sample.sp8) <> 0)
    by (vm_compute; discriminate).
  assert (Hsig : VerifySignature (signer Sample.sp8) (GetPubkey Sample.proposer0)
            (randaoSigningRoot (FD := ForkData) Bytes.le32 Sample.sp8 100
               Sample.zero32)
            (GetRandaoReveal (GetBody (Sample.block 0 Scenario.signature)))
          = None) by (vm_compute; reflexivity).
  exact (processRandaoReveal_validated_success
           (BS := MemState_BeaconStateT) (FDT := ForkData_ForkDataT)
           Bytes.le32 Sample.sp8 Sample.validate
           (Sample.block 0 Scenario.signature) Sample.state
           100 Sample.proposer0 Sample.zero32 Sample.mixX
           eq_refl eq_refl eq_refl eq_refl Hsig HV eq_refl).
Defined.

Lemma processRandaoReveal_flag_only_adds_verification_witness :
  let p ctx :=
    processRandaoReveal Bytes.le32 Sample.sp8 ctx
      (Sample.block 0 Scenario.signature) in
  let r := run Sample.strict (p Sample.validate) Sample.state in
  let r' := run Sample.strict (p Sample.skip) Sample.state in
  r.1 = r'.1 /\ without_verify r.2 = without_verify r'.2 /\
  length r.2 = S (length r'.2).
Proof.
  intros p r r'.
  assert (Hacc : forall slot proposer gvr,
             GetSlot Sample.state = Ok slot ->
             ValidatorByIndex Sample.state 0 = Ok proposer ->
             GetGenesisValidatorsRoot Sample.state = Ok gvr ->
             VerifySignature Sample.strict (GetPubkey proposer)
               (randaoSigningRoot (FD := ForkData) Bytes.le32 Sample.sp8
                  slot gvr) Scenario.signature = None).
  { intros slot proposer gvr Hslot Hprop Hgvr.
    injection Hslot as <-. injection Hprop as <-. injection Hgvr as <-.
    vm_compute. reflexivity. }
  destruct (processRandaoReveal_flag_only_adds_verification
              (BS := MemState_BeaconStateT) (FDT := ForkData_ForkDataT)
              Bytes.le32 Sample.sp8 Sample.validate Sample.skip
              (Sample.block 0 Scenario.signature) Sample.state Hacc)
    as [Hsame Hcalls].
  split; [exact Hsame|]. split; [exact Hcalls|].
  vm_compute. reflexivity.
Defined.

Lemma processRandaoReveal_single_write_witness :
  let r :=
    run Sample.strict
      (processRandaoReveal Bytes.le32 Sample.sp8 Sample.skip
         (Sample.block 1 Sample.reveal)) Sample.state in
  r.1.1 = Return tt /\
  exists i m, last r.2 = Some (CUpdateRandaoMixAtIndex i m None).
Proof.
  intros r.
  assert (Hrun : run Sample.strict
            (processRandaoReveal Bytes.le32 Sample.sp8 Sample.skip
               (Sample.block 1 Sample.reveal)) Sample.state
          = (r.1.1, r.1.2, r.2)) by (vm_compute; reflexivity).
  assert (Hok : r.1.1 = Return tt) by (vm_compute; reflexivity).
  split; [exact Hok|].
  destruct (processRandaoReveal_single_write (FD := ForkData) Bytes.le32
              Sample.sp8 Sample.skip (Sample.block 1 Sample.reveal)
              Sample.state r.1.2 r.1.1 r.2 Hrun) as [_ [Hlast _]].
  exact (Hlast Hok).
Defined.

Lemma zero_vector_panics_witness :
  EpochsPerHistoricalVector (cs Scenario.sp0) = 0 /\
  (run Sample.strict
     (processRandaoReveal Bytes.le32 Scenario.sp0 Sample.skip
        (Sample.block 0 Sample.reveal)) Sample.state).1.1 = Panic /\
  run Sample.strict (processRandaoMixesReset Scenario.sp0) Sample.state =
    (Panic, Sample.state, [CGetSlot (Ok 100)]).
Proof.
  split; [reflexivity|].
  destruct (zero_vector_panics (BS := MemState_BeaconStateT)
              (FDT := ForkData_ForkDataT) Bytes.le32 Scenario.sp0 Sample.skip
              (Sample.block 0 Sample.reveal) Sample.state eq_refl)
    as (_ & _ & _ & Hreveal & Hreset).
  split.
  - exact (Hreveal 100 Sample.proposer0 Sample.zero32
             eq_refl eq_refl eq_refl (or_introl eq_refl)).
  - exact (Hreset 100 eq_refl).
Defined.

Lemma processRandaoMixesReset_failed_read_witness :
  let r :=
    run Sample.strict (processRandaoMixesReset Sample.sp8) Sample.no_mixes in
  In (CGetRandaoMixAtIndex 3 (Err StoreError)) r.2 /\
  r.1.1 = Fail StoreError /\ r.1.2 = Sample.no_mixes /\
  Forall (fun c => is_update c = false) r.2.
Proof.
  intros r.
  assert (Hrun : run Sample.strict (processRandaoMixesReset Sample.sp8)
                   Sample.no_mixes = (r.1.1, r.1.2, r.2))
    by (vm_compute; reflexivity).
  assert (Hin : In (CGetRandaoMixAtIndex 3 (Err StoreError)) r.2)
    by (vm_compute; tauto).
  split; [exact Hin|].
  apply (processRandaoMixesReset_failed_read Sample.sp8 Sample.no_mixes
           r.1.2 r.1.1 r.2 StoreError Hrun).
  exists (CGetRandaoMixAtIndex 3 (Err StoreError)).
  split; [exact Hin|reflexivity].
Defined.

Lemma processRandaoMixesReset_single_write_witness :
  let r :=
    run Sample.strict (processRandaoMixesReset Sample.sp8) Sample.state in
  In (CUpdateRandaoMixAtIndex 4 Sample.mixX None) r.2 /\
  last r.2 = Some (CUpdateRandaoMixAtIndex 4 Sample.mixX None) /\
  r.1.1 = Return tt.
Proof.
  intros r.
  assert (Hrun : run Sample.strict (processRandaoMixesReset Sample.sp8)
                   Sample.state = (r.1.1, r.1.2, r.2))
    by (vm_compute; reflexivity).
  assert (Hin : In (CUpdateRandaoMixAtIndex 4 Sample.mixX None) r.2)
    by (vm_compute; tauto).
  split; [exact Hin|].
  destruct (processRandaoMixesReset_single_write Sample.sp8 Sample.state
              r.1.2 r.1.1 r.2 Hrun) as (_ & _ & _ & Hwrite).
  destruct (Hwrite 4 Sample.mixX None Hin) as (Hlast & _ & Hout & _).
  split; [exact Hlast|exact Hout].
Defined.

Lemma processRandaoReveal_writes_one_index_witness :
  let r :=
    run Sample.strict
      (processRandaoReveal Bytes.le32 Sample.sp8 Sample.skip
         (Sample.block 1 Sample.reveal)) Sample.state in
  r.1.1 = Return tt /\
  exists (slot : N) (prevMix newMix : Bytes32),
    GetSlot Sample.state = Ok slot /\
    GetRandaoMixAtIndex Sample.state (mixIndex (cs Sample.sp8) slot) = Ok prevMix /\
    buildRandaoMix prevMix Sample.reveal = Some newMix /\
    GetRandaoMixAtIndex r.1.2 (mixIndex (cs Sample.sp8) slot) = Ok newMix /\
    (forall j, j <> mixIndex (cs Sample.sp8) slot ->
               GetRandaoMixAtIndex r.1.2 j = GetRandaoMixAtIndex Sample.state j) /\
    GetSlot r.1.2 = Ok slot.
Proof.
  intros r.
  assert (Hrun : run Sample.strict
            (processRandaoReveal Bytes.le32 Sample.sp8 Sample.skip
               (Sample.block 1 Sample.reveal)) Sample.state
          = (Return tt, r.1.2, r.2)) by (vm_compute; reflexivity).
  split; [vm_compute; reflexivity|].
  exact (processRandaoReveal_writes_one_index (FD := ForkData) Bytes.le32
           MemState_laws Sample.sp8 Sample.skip (Sample.block 1 Sample.reveal)
           Sample.state r.1.2 r.2 Hrun).
Defined.

Lemma processRandaoMixesReset_repeated_witness :
  let r1 :=
    run Sample.strict (processRandaoMixesReset Sample.sp8) Sample.state in
  let r2 := run Sample.strict (processRandaoMixesReset Sample.sp8) r1.1.2 in
  r1.1.1 = Return tt /\
  exists (slot : N) (X : Bytes32) (r : option error),
    let e := SlotToEpoch (cs Sample.sp8) slot in
    let Vlen := EpochsPerHistoricalVector (cs Sample.sp8) in
    r1.2 = [CGetSlot (Ok slot);
            CGetRandaoMixAtIndex (e mod Vlen) (Ok X);
            CUpdateRandaoMixAtIndex (u64_add e 1 mod Vlen) X None] /\
    r2.2 = [CGetSlot (Ok slot);
            CGetRandaoMixAtIndex (e mod Vlen) (Ok X);
            CUpdateRandaoMixAtIndex (u64_add e 1 mod Vlen) X r] /\
    r2.1.1 = ended r /\
    (r = None ->
     GetSlot r2.1.2 = GetSlot r1.1.2 /\
     forall k, GetRandaoMixAtIndex r2.1.2 k = GetRandaoMixAtIndex r1.1.2 k).
Proof.
  intros r1 r2.
  assert (Hrun1 : run Sample.strict (processRandaoMixesReset Sample.sp8)
                    Sample.state = (Return tt, r1.1.2, r1.2))
    by (vm_compute; reflexivity).
  assert (Hrun2 : run Sample.strict (processRandaoMixesReset Sample.sp8)
                    r1.1.2 = (r2.1.1, r2.1.2, r2.2))
    by (vm_compute; reflexivity).
  split; [vm_compute; reflexivity|].
  exact (processRandaoMixesReset_repeated MemState_laws Sample.sp8
           Sample.state r1.1.2 r2.1.2 r2.1.1 r1.2 r2.2 Hrun1 Hrun2).
Defined.



Lemma processRandaoReveal_skip_ignores_fork_witness :
  GetSkipValidateRandao Sample.skip = true /\
  run Sample.strict
    (processRandaoReveal Bytes.le32 Sample.sp8 Sample.skip
       (Sample.block 0 Sample.forged)) Sample.state =
  run Sample.lenient
    (@processRandaoReveal MemValidator MemValidator_ValidatorT unit
       Scenario.unit_fork Bytes.be32 Scenario.sp_other Sample.skip
       (Sample.block 0 Sample.forged)) Sample.state.
Proof.
  split; [reflexivity|].
  exact (processRandaoReveal_skip_ignores_fork
           (BS := MemState_BeaconStateT) ForkData_ForkDataT Scenario.unit_fork
           Bytes.le32 Bytes.be32 Sample.sp8 Scenario.sp_other Sample.skip
           (Sample.block 0 Sample.forged) Sample.state
           eq_refl (fun _ => eq_refl) eq_refl).
Defined.
